(** * FocusFlow Pro: habit streaks and focus-session timing

    A shallow embedding of the two pieces of business logic of the server:
    the check-in handler of [server/routes.ts] (POST /api/habits/:id/check-in)
    and the focus-session handlers (POST /api/focus-sessions/start and
    POST /api/focus-sessions/end), together with the parts of [MemStorage]
    ([server/storage.ts]) they call.

    Conventions.
    - A JavaScript [Date] is represented by its time value, an integer number
      of milliseconds since the epoch, in [Z].  Every [Date] the handlers
      build comes from [new Date()], so the invalid date (NaN) is not
      represented, and time values are not clipped to the range of
      +-8.64e15 ms.
    - JavaScript numbers holding streak counts and minute counts are
      integers; they are modelled in [Z] (exact as long as they stay below
      2^53, which a counter incremented once per check-in does).
    - [null] and [undefined] in a nullable column are [None].
    - The module-level [storage] object is threaded explicitly: a handler
      takes the store and returns the new store with the HTTP response.
    - [new Date()] and [randomUUID()] read the environment; their results
      are arguments of the functions that call them. *)

From stdpp Require Import gmap strings.
From Stdlib Require Import ZArith Lia Bool.

Local Open Scope Z_scope.

(** ** The calendar of the JavaScript runtime

    [getDate], [getMonth], [getFullYear] and [setDate] are built-ins of the
    runtime.  They are modelled after ECMA-262, section "Date Objects":
    the abstract operations keep the names they have there.  The time zone
    of the host is the operation [LocalTZA] of the standard, a parameter:
    hosts with a fixed offset and hosts with daylight-saving transitions
    are instances ([fixedOffset], [zoneOffset]). *)

Module JSDate.

Definition msPerDay : Z := 86400000.

Definition Day (t : Z) : Z := t / msPerDay.

Definition TimeWithinDay (t : Z) : Z := t mod msPerDay.

Definition DaysInYear (y : Z) : Z :=
  if negb (y mod 4 =? 0) then 365
  else if negb (y mod 100 =? 0) then 366
  else if negb (y mod 400 =? 0) then 365
  else 366.

Definition DayFromYear (y : Z) : Z :=
  365 * (y - 1970) + (y - 1969) / 4 - (y - 1901) / 100 + (y - 1601) / 400.

Definition TimeFromYear (y : Z) : Z := msPerDay * DayFromYear y.

(** ECMA-262 defines [YearFromTime t] as the largest [y] with
    [TimeFromYear y <= t].  It is computed here from the estimate
    [1970 + 400 d / 146097] (146097 days in 400 years), corrected by one
    year in either direction; [YearFromDay_spec] shows this is that [y]. *)
Definition YearFromDay (d : Z) : Z :=
  let y0 := 1970 + (400 * d) / 146097 in
  if d <? DayFromYear y0 then y0 - 1
  else if DayFromYear (y0 + 1) <=? d then y0 + 1
  else y0.

Definition YearFromTime (t : Z) : Z := YearFromDay (Day t).

Definition InLeapYear (t : Z) : Z :=
  if DaysInYear (YearFromTime t) =? 366 then 1 else 0.

Definition DayWithinYear (t : Z) : Z := Day t - DayFromYear (YearFromTime t).

(** Month numbers run from 0 (January) to 11 (December). *)
Definition MonthFromTime (t : Z) : Z :=
  let d := DayWithinYear t in
  let l := InLeapYear t in
  if d <? 31 then 0
  else if d <? 59 + l then 1
  else if d <? 90 + l then 2
  else if d <? 120 + l then 3
  else if d <? 151 + l then 4
  else if d <? 181 + l then 5
  else if d <? 212 + l then 6
  else if d <? 243 + l then 7
  else if d <? 273 + l then 8
  else if d <? 304 + l then 9
  else if d <? 334 + l then 10
  else 11.

Definition DateFromTime (t : Z) : Z :=
  let d := DayWithinYear t in
  let l := InLeapYear t in
  match MonthFromTime t with
  | 0 => d + 1
  | 1 => d - 30
  | 2 => d - 58 - l
  | 3 => d - 89 - l
  | 4 => d - 119 - l
  | 5 => d - 150 - l
  | 6 => d - 180 - l
  | 7 => d - 211 - l
  | 8 => d - 242 - l
  | 9 => d - 272 - l
  | 10 => d - 303 - l
  | _ => d - 333 - l
  end.

(** Number of days from the start of a year to the start of month [mn]
    (0..11), [l] being 1 in a leap year and 0 otherwise. *)
Definition DayWithinYearOfMonth (mn l : Z) : Z :=
  match mn with
  | 0 => 0
  | 1 => 31
  | 2 => 59 + l
  | 3 => 90 + l
  | 4 => 120 + l
  | 5 => 151 + l
  | 6 => 181 + l
  | 7 => 212 + l
  | 8 => 243 + l
  | 9 => 273 + l
  | 10 => 304 + l
  | _ => 334 + l
  end.

(** [MakeDay year month date]: the day number of the first of month
    [month mod 12] in year [year + floor (month / 12)], plus [date - 1].
    Dates outside the month (0, negative, 32, ...) carry into the
    neighbouring months. *)
Definition MakeDay (year month date : Z) : Z :=
  let ym := year + month / 12 in
  let mn := month mod 12 in
  let l := if DaysInYear ym =? 366 then 1 else 0 in
  DayFromYear ym + DayWithinYearOfMonth mn l + date - 1.

Definition MakeDate (day time : Z) : Z := day * msPerDay + time.

Section LocalTime.

(** [LocalTZA t isUTC], implementation-defined in ECMA-262: the offset of
    the host's local time from UTC, in milliseconds.  With [isUTC = true],
    [t] is a UTC time value and the result is the offset in effect at [t].
    With [isUTC = false], [t] is a local time value and the result is the
    offset under which the host reads that local time. *)
Variable LocalTZA : Z -> bool -> Z.

Definition LocalTime (t : Z) : Z := t + LocalTZA t true.

Definition UTC (t : Z) : Z := t - LocalTZA t false.

Definition getDate (t : Z) : Z := DateFromTime (LocalTime t).

Definition getMonth (t : Z) : Z := MonthFromTime (LocalTime t).

Definition getFullYear (t : Z) : Z := YearFromTime (LocalTime t).

(** [d.setDate(date)]: the new time value of [d]. *)
Definition setDate (t date : Z) : Z :=
  let lt := LocalTime t in
  let newDate :=
    MakeDate (MakeDay (YearFromTime lt) (MonthFromTime lt) date)
             (TimeWithinDay lt) in
  UTC newDate.

(** The local calendar day of a time value, as a day number. *)
Definition localDay (t : Z) : Z := Day (LocalTime t).

End LocalTime.

(** A host time zone given by its first offset and its transitions, each
    the UTC time value at which a new offset starts, in order of time.  At
    a UTC time value the offset is that of the last transition passed.  A
    local time value that a transition skips (the offset grows) or repeats
    (the offset shrinks) is read with the offset before the transition, as
    ECMA-262 prescribes for [LocalTZA ( t, false )]. *)
Fixpoint zoneOffset (offset : Z) (transitions : list (Z * Z))
    (t : Z) (isUTC : bool) : Z :=
  match transitions with
  | [] => offset
  | (start, next) :: rest =>
      if t <? (if isUTC then start else start + Z.max offset next)
      then offset
      else zoneOffset next rest t isUTC
  end.

(** A host without transitions. *)
Definition fixedOffset (offset : Z) : Z -> bool -> Z := zoneOffset offset [].

(** The transitions of a zone are in order, and one that moves the clock
    forward is over before the next begins. *)
Fixpoint spaced (offset : Z) (transitions : list (Z * Z)) : Prop :=
  match transitions with
  | [] => True
  | (start, next) :: rest =>
      match rest with
      | [] => True
      | (start', _) :: _ => start + Z.max 0 (next - offset) <= start'
      end
      /\ spaced next rest
  end.

End JSDate.


(** ** JSON values of a request body

    Only truthiness and "is it this string" matter to the handlers. *)

Inductive JsValue :=
  | JsUndefined
  | JsNull
  | JsBool (b : bool)
  | JsNumber (n : Z)
  | JsString (s : string)
  | JsObject.

Definition truthy (v : JsValue) : bool :=
  match v with
  | JsUndefined | JsNull => false
  | JsBool b => b
  | JsNumber n => negb (n =? 0)
  | JsString s => negb (String.eqb s "")
  | JsObject => true
  end.

(** [a || b] *)
Definition jsOr (a b : JsValue) : JsValue := if truthy a then a else b.

(** [x || null] on a nullable number and on a nullable string: the falsy
    values [0] and the empty string become [null]. *)
Definition numOrNull (x : option Z) : option Z :=
  match x with
  | Some n => if n =? 0 then None else Some n
  | None => None
  end.

Definition strOrNull (x : option string) : option string :=
  match x with
  | Some s => if String.eqb s "" then None else Some s
  | None => None
  end.

(** [x || null] on a nullable [Date]: every [Date] object is truthy. *)
Definition dateOrNull (x : option Z) : option Z := x.

(** ** The schema ([shared/schema.ts]) *)

Inductive Frequency := daily | weekly.

Inductive SessionType := focus | break.

(** [Habit = typeof habits.$inferSelect].  [frequency] is [None] when the
    creation payload leaves it out: [MemStorage] does not apply the column
    default. *)
Module Habit.
Record t := mk {
  id : string;
  name : string;
  description : option string;
  frequency : option Frequency;
  currentStreak : Z;
  bestStreak : Z;
  lastCompletedAt : option Z;
  createdAt : Z;
}.
End Habit.

(** [InsertHabit]: [id], [createdAt], [currentStreak], [bestStreak] and
    [lastCompletedAt] are omitted from the insert schema. *)
Module InsertHabit.
Record t := mk {
  name : string;
  description : option string;
  frequency : option Frequency;
}.
End InsertHabit.

(** [Partial<Habit>]: a field is [None] when the key is absent. *)
Module PartialHabit.
Record t := mk {
  id : option string;
  name : option string;
  description : option (option string);
  frequency : option (option Frequency);
  currentStreak : option Z;
  bestStreak : option Z;
  lastCompletedAt : option (option Z);
  createdAt : option Z;
}.
End PartialHabit.

Module FocusSession.
Record t := mk {
  id : string;
  startTime : Z;
  endTime : option Z;
  durationMinutes : option Z;
  sessionType : option SessionType;
  taskId : option string;
  createdAt : Z;
}.
End FocusSession.

(** [InsertFocusSession]: [id] and [createdAt] are omitted. *)
Module InsertFocusSession.
Record t := mk {
  startTime : Z;
  endTime : option Z;
  durationMinutes : option Z;
  sessionType : option SessionType;
  taskId : option string;
}.
End InsertFocusSession.

Module PartialFocusSession.
Record t := mk {
  id : option string;
  startTime : option Z;
  endTime : option (option Z);
  durationMinutes : option (option Z);
  sessionType : option (option SessionType);
  taskId : option (option string);
  createdAt : option Z;
}.
End PartialFocusSession.

(** [{ ...habit, ...updates }] *)
Definition spreadHabit (habit : Habit.t) (updates : PartialHabit.t) : Habit.t :=
  {| Habit.id := default (Habit.id habit) (PartialHabit.id updates);
     Habit.name := default (Habit.name habit) (PartialHabit.name updates);
     Habit.description :=
       default (Habit.description habit) (PartialHabit.description updates);
     Habit.frequency :=
       default (Habit.frequency habit) (PartialHabit.frequency updates);
     Habit.currentStreak :=
       default (Habit.currentStreak habit) (PartialHabit.currentStreak updates);
     Habit.bestStreak :=
       default (Habit.bestStreak habit) (PartialHabit.bestStreak updates);
     Habit.lastCompletedAt :=
       default (Habit.lastCompletedAt habit)
               (PartialHabit.lastCompletedAt updates);
     Habit.createdAt :=
       default (Habit.createdAt habit) (PartialHabit.createdAt updates) |}.

(** [{ ...session, ...updates }] *)
Definition spreadFocusSession
    (session : FocusSession.t) (updates : PartialFocusSession.t)
    : FocusSession.t :=
  {| FocusSession.id :=
       default (FocusSession.id session) (PartialFocusSession.id updates);
     FocusSession.startTime :=
       default (FocusSession.startTime session)
               (PartialFocusSession.startTime updates);
     FocusSession.endTime :=
       default (FocusSession.endTime session)
               (PartialFocusSession.endTime updates);
     FocusSession.durationMinutes :=
       default (FocusSession.durationMinutes session)
               (PartialFocusSession.durationMinutes updates);
     FocusSession.sessionType :=
       default (FocusSession.sessionType session)
               (PartialFocusSession.sessionType updates);
     FocusSession.taskId :=
       default (FocusSession.taskId session)
               (PartialFocusSession.taskId updates);
     FocusSession.createdAt :=
       default (FocusSession.createdAt session)
               (PartialFocusSession.createdAt updates) |}.

(** ** [MemStorage] ([server/storage.ts])

    The two maps the modelled handlers use; [tasks] and [notes] are
    independent of them. *)

Record MemStorage := mkStorage {
  focusSessions : gmap string FocusSession.t;
  habits : gmap string Habit.t;
}.

(** [new MemStorage()] *)
Definition newMemStorage : MemStorage :=
  {| focusSessions := ∅; habits := ∅ |}.

Definition setFocusSessions (st : MemStorage) (m : gmap string FocusSession.t)
    : MemStorage :=
  {| focusSessions := m; habits := habits st |}.

Definition setHabits (st : MemStorage) (m : gmap string Habit.t) : MemStorage :=
  {| focusSessions := focusSessions st; habits := m |}.

Definition getFocusSession (st : MemStorage) (id : string)
    : option FocusSession.t :=
  focusSessions st !! id.

(** [id] is the result of [randomUUID()], [now] that of [new Date()]. *)
Definition createFocusSession
    (st : MemStorage) (insertSession : InsertFocusSession.t)
    (id : string) (now : Z) : MemStorage * FocusSession.t :=
  let session :=
    {| FocusSession.id := id;
       FocusSession.startTime := InsertFocusSession.startTime insertSession;
       FocusSession.sessionType := InsertFocusSession.sessionType insertSession;
       FocusSession.createdAt := now;
       FocusSession.endTime :=
         dateOrNull (InsertFocusSession.endTime insertSession);
       FocusSession.durationMinutes :=
         numOrNull (InsertFocusSession.durationMinutes insertSession);
       FocusSession.taskId :=
         strOrNull (InsertFocusSession.taskId insertSession) |} in
  (setFocusSessions st (<[id := session]> (focusSessions st)), session).

Definition updateFocusSession
    (st : MemStorage) (id : string) (updates : PartialFocusSession.t)
    : MemStorage * option FocusSession.t :=
  match focusSessions st !! id with
  | None => (st, None)
  | Some session =>
      let updated := spreadFocusSession session updates in
      (setFocusSessions st (<[id := updated]> (focusSessions st)), Some updated)
  end.

Definition getHabit (st : MemStorage) (id : string) : option Habit.t :=
  habits st !! id.

Definition createHabit
    (st : MemStorage) (insertHabit : InsertHabit.t) (id : string) (now : Z)
    : MemStorage * Habit.t :=
  let habit :=
    {| Habit.name := InsertHabit.name insertHabit;
       Habit.frequency := InsertHabit.frequency insertHabit;
       Habit.id := id;
       Habit.description := strOrNull (InsertHabit.description insertHabit);
       Habit.currentStreak := 0;
       Habit.bestStreak := 0;
       Habit.lastCompletedAt := None;
       Habit.createdAt := now |} in
  (setHabits st (<[id := habit]> (habits st)), habit).

Definition updateHabit
    (st : MemStorage) (id : string) (updates : PartialHabit.t)
    : MemStorage * option Habit.t :=
  match habits st !! id with
  | None => (st, None)
  | Some habit =>
      let updated := spreadHabit habit updates in
      (setHabits st (<[id := updated]> (habits st)), Some updated)
  end.

(** [Map.delete] returns whether the key was present. *)
Definition deleteHabit (st : MemStorage) (id : string) : MemStorage * bool :=
  (setHabits st (delete id (habits st)), bool_decide (is_Some (habits st !! id))).

(** ** The route handlers ([server/routes.ts])

    A handler returns the new store and the response it sends.  None of the
    storage methods throws, so the [catch] branches answering 500 are never
    taken and are left out. *)

Inductive Body :=
  | BodyHabit (habit : option Habit.t)
      (** [res.json(habit)]; [None] is [undefined] *)
  | BodySession (session : option FocusSession.t)
  | BodyDeleted
      (** the empty body of a 204 *)
  | BodyError (message : string)
      (** [{ error: message }] *)
  | BodyZodError.
      (** [{ error: error.message }] for the error thrown by a schema *)

Record Response := mkResponse { status : Z; body : Body }.

(** The body of POST /api/focus-sessions/start. *)
Module StartBody.
Record t := mk { sessionType : JsValue; taskId : JsValue }.
End StartBody.

(** [insertFocusSessionSchema.parse] on the object built by the start
    handler; [None] when it throws.  The schema is generated from the table
    declaration: [sessionType] must be one of the two enum strings,
    [taskId] a string, [null] or [undefined]. *)
Definition parseSessionType (v : JsValue) : option SessionType :=
  match v with
  | JsString s =>
      if String.eqb s "focus" then Some focus
      else if String.eqb s "break" then Some break
      else None
  | _ => None
  end.

Definition parseTaskId (v : JsValue) : option (option string) :=
  match v with
  | JsString s => Some (Some s)
  | JsNull | JsUndefined => Some None
  | _ => None
  end.

Definition insertFocusSessionSchema_parse
    (startTime : Z) (sessionType taskId : JsValue)
    (endTime durationMinutes : option Z) : option InsertFocusSession.t :=
  match parseSessionType sessionType, parseTaskId taskId with
  | Some ty, Some task =>
      Some {| InsertFocusSession.startTime := startTime;
              InsertFocusSession.sessionType := Some ty;
              InsertFocusSession.taskId := task;
              InsertFocusSession.endTime := endTime;
              InsertFocusSession.durationMinutes := durationMinutes |}
  | _, _ => None
  end.

(** POST /api/focus-sessions/start.  [now] is the [new Date()] of the
    handler; [id] and [createdNow] are the [randomUUID()] and [new Date()]
    of [createFocusSession]. *)
Definition focusSessionStart
    (st : MemStorage) (reqBody : StartBody.t) (now : Z)
    (id : string) (createdNow : Z) : MemStorage * Response :=
  match
    insertFocusSessionSchema_parse
      now
      (jsOr (StartBody.sessionType reqBody) (JsString "focus"))
      (jsOr (StartBody.taskId reqBody) JsNull)
      None
      None
  with
  | Some validatedData =>
      let '(st', session) := createFocusSession st validatedData id createdNow in
      (st', {| status := 201; body := BodySession (Some session) |})
  | None => (st, {| status := 400; body := BodyZodError |})
  end.

(** POST /api/focus-sessions/end.  [id] is [req.body.id]; a [Map] with
    string keys has no entry for a value that is not a string. *)
Definition focusSessionEnd
    (st : MemStorage) (id : JsValue) (now : Z) : MemStorage * Response :=
  if negb (truthy id) then
    (st, {| status := 400; body := BodyError "Session ID is required" |})
  else
    match id with
    | JsString key =>
        match getFocusSession st key with
        | None =>
            (st, {| status := 404; body := BodyError "Session not found" |})
        | Some session =>
            let endTime := now in
            let durationMinutes :=
              (endTime - FocusSession.startTime session) / 60000 in
            let '(st', updatedSession) :=
              updateFocusSession st key
                {| PartialFocusSession.id := None;
                   PartialFocusSession.startTime := None;
                   PartialFocusSession.endTime := Some (Some endTime);
                   PartialFocusSession.durationMinutes :=
                     Some (Some durationMinutes);
                   PartialFocusSession.sessionType := None;
                   PartialFocusSession.taskId := None;
                   PartialFocusSession.createdAt := None |} in
            (st', {| status := 200; body := BodySession updatedSession |})
        end
    | _ => (st, {| status := 404; body := BodyError "Session not found" |})
    end.

(** POST /api/habits.  [validatedData] is the result of
    [insertHabitSchema.parse(req.body)], [None] when it throws. *)
Definition habitCreate
    (st : MemStorage) (validatedData : option InsertHabit.t)
    (id : string) (now : Z) : MemStorage * Response :=
  match validatedData with
  | Some data =>
      let '(st', habit) := createHabit st data id now in
      (st', {| status := 201; body := BodyHabit (Some habit) |})
  | None => (st, {| status := 400; body := BodyZodError |})
  end.

(** DELETE /api/habits/:id *)
Definition habitDelete (st : MemStorage) (id : string) : MemStorage * Response :=
  let '(st', success) := deleteHabit st id in
  if negb success then
    (st', {| status := 404; body := BodyError "Habit not found" |})
  else (st', {| status := 204; body := BodyDeleted |}).

Section CheckIn.

(** The time zone of the server. *)
Variable LocalTZA : Z -> bool -> Z.

(** The three-component comparison the handler writes out twice, for
    [now] and for [yesterday]. *)
Definition sameCalendarFields (a b : Z) : bool :=
  (JSDate.getDate LocalTZA a =? JSDate.getDate LocalTZA b)
  && (JSDate.getMonth LocalTZA a =? JSDate.getMonth LocalTZA b)
  && (JSDate.getFullYear LocalTZA a =? JSDate.getFullYear LocalTZA b).

(** POST /api/habits/:id/check-in.  [id] is [req.params.id], [now] the
    handler's [new Date()]. *)
Definition habitCheckIn
    (st : MemStorage) (id : string) (now : Z) : MemStorage * Response :=
  match getHabit st id with
  | None => (st, {| status := 404; body := BodyError "Habit not found" |})
  | Some habit =>
      let lastCompleted := Habit.lastCompletedAt habit in
      (* the statements after the [if (lastCompleted) ... else ...] *)
      let persist (newStreak : Z) : MemStorage * Response :=
        let newBestStreak := Z.max (Habit.bestStreak habit) newStreak in
        let '(st', updatedHabit) :=
          updateHabit st id
            {| PartialHabit.id := None;
               PartialHabit.name := None;
               PartialHabit.description := None;
               PartialHabit.frequency := None;
               PartialHabit.currentStreak := Some newStreak;
               PartialHabit.bestStreak := Some newBestStreak;
               PartialHabit.lastCompletedAt := Some (Some now);
               PartialHabit.createdAt := None |} in
        (st', {| status := 200; body := BodyHabit updatedHabit |}) in
      match lastCompleted with
      | Some lastCompleted =>
          let isSameDay := sameCalendarFields lastCompleted now in
          if isSameDay then
            (st, {| status := 400;
                    body := BodyError "Already checked in today" |})
          else
            let yesterday :=
              JSDate.setDate LocalTZA now (JSDate.getDate LocalTZA now - 1) in
            let isConsecutive := sameCalendarFields lastCompleted yesterday in
            persist (if isConsecutive then Habit.currentStreak habit + 1 else 1)
      | None => persist 1
      end
  end.

(** A request to the habits API, with the values it reads from the
    environment. *)
Inductive HabitRequest :=
  | ReqCreate (validatedData : option InsertHabit.t) (id : string) (now : Z)
  | ReqCheckIn (id : string) (now : Z)
  | ReqDelete (id : string).

Definition handle (st : MemStorage) (r : HabitRequest) : MemStorage * Response :=
  match r with
  | ReqCreate validatedData id now => habitCreate st validatedData id now
  | ReqCheckIn id now => habitCheckIn st id now
  | ReqDelete id => habitDelete st id
  end.

(** The store after serving the requests in order. *)
Fixpoint serve (st : MemStorage) (rs : list HabitRequest) : MemStorage :=
  match rs with
  | [] => st
  | r :: rs' => serve (fst (handle st r)) rs'
  end.

End CheckIn.

(** ** The outcomes named by the specification *)

(** [AlreadyCheckedInToday]: the 400 answer of the check-in handler. *)
Definition AlreadyCheckedInToday : Response :=
  {| status := 400; body := BodyError "Already checked in today" |}.

(** [NotFound] for a session: the 404 answer of the end handler. *)
Definition SessionNotFound : Response :=
  {| status := 404; body := BodyError "Session not found" |}.

(** The calendar-day distance the specification speaks of: the number of
    local calendar days from [a] to [b]. *)
Definition daysBetween (LocalTZA : Z -> bool -> Z) (a b : Z) : Z :=
  JSDate.localDay LocalTZA b - JSDate.localDay LocalTZA a.

(** The local calendar day on which the host puts the [yesterday] of the
    check-in handler: the local time 24 hours before the local time of
    [now], converted to UTC and read back. *)
Definition yesterdayDay (LocalTZA : Z -> bool -> Z) (now : Z) : Z :=
  JSDate.Day
    (JSDate.LocalTime LocalTZA
       (JSDate.UTC LocalTZA (JSDate.LocalTime LocalTZA now - JSDate.msPerDay))).

(** [yesterday] lies on the calendar day before [now].  It does unless a
    transition of the time zone skips that local time and carries it over
    midnight. *)
Definition yesterdayOnPreviousDay (LocalTZA : Z -> bool -> Z) (now : Z) : Prop :=
  yesterdayDay LocalTZA now = JSDate.localDay LocalTZA now - 1.

(** [yesterday] lies no earlier than the calendar day before [now]. *)
Definition yesterdayNotEarlier (LocalTZA : Z -> bool -> Z) (now : Z) : Prop :=
  JSDate.localDay LocalTZA now - 1 <= yesterdayDay LocalTZA now.

(** The answer of the end handler to a request without a usable id. *)
Definition SessionIdRequired : Response :=
  {| status := 400; body := BodyError "Session ID is required" |}.

(** The duration as the specification words it: whole minutes between
    [start] and [now], "truncated toward zero".  To be compared with the
    [Math.floor] of [focusSessionEnd]. *)
Definition minutesTruncatedTowardZero (start now : Z) : Z :=
  Z.quot (now - start) 60000.


(** ** Sample data

    The scenarios of the specification, used to exercise the theorems. *)

(** Time value of hour [h] of day number [d] (UTC). *)
Definition atHour (d h : Z) : Z := d * 86400000 + h * 3600000.

(** A host on UTC. *)
Definition utcZone : Z -> bool -> Z := JSDate.fixedOffset 0.

(** New York in 2024: UTC-5, UTC-4 from 10 March 07:00 UTC, UTC-5 again
    from 3 November 06:00 UTC. *)
Definition newYork2024 : Z -> bool -> Z :=
  JSDate.zoneOffset (-18000000)
    [(1710054000000, -14400000); (1730613600000, -18000000)].

(** Pyongyang in 2018: UTC+8:30, UTC+9 from 4 May 15:00 UTC, when the
    clocks went from 23:30 to midnight. *)
Definition pyongyang2018 : Z -> bool -> Z :=
  JSDate.zoneOffset 30600000 [(1525446000000, 32400000)].

Definition sampleHabit (cs bs : Z) (lc : option Z) : Habit.t :=
  {| Habit.id := "h1";
     Habit.name := "Read";
     Habit.description := None;
     Habit.frequency := Some daily;
     Habit.currentStreak := cs;
     Habit.bestStreak := bs;
     Habit.lastCompletedAt := lc;
     Habit.createdAt := 0 |}.

Definition habitStore (h : Habit.t) : MemStorage :=
  setHabits newMemStorage {[ "h1" := h ]}.

Definition sampleSession (start : Z) (finish duration : option Z)
    : FocusSession.t :=
  {| FocusSession.id := "s1";
     FocusSession.startTime := start;
     FocusSession.endTime := finish;
     FocusSession.durationMinutes := duration;
     FocusSession.sessionType := Some focus;
     FocusSession.taskId := None;
     FocusSession.createdAt := start |}.

Definition sessionStore (s : FocusSession.t) : MemStorage :=
  setFocusSessions newMemStorage {[ "s1" := s ]}.

(** ** Tasks and notes ([shared/schema.ts], [server/storage.ts])

    [MemStorage] keeps tasks and notes in two further maps, which no
    method shares with the maps of habits and sessions; each method is
    modelled on the one map it reads and writes. *)

Inductive Priority := low | medium | high.

Inductive TaskStatus := todo | in_progress | completed.

(** [Task = typeof tasks.$inferSelect].  [priority] and [status] are [None]
    when the creation payload leaves them out. *)
Module Task.
Record t := mk {
  id : string;
  title : string;
  description : option string;
  priority : option Priority;
  status : option TaskStatus;
  category : option string;
  estimatedMinutes : option Z;
  dueDate : option Z;
  completedAt : option Z;
  createdAt : Z;
}.
End Task.

(** [InsertTask]: [id], [createdAt] and [completedAt] are omitted. *)
Module InsertTask.
Record t := mk {
  title : string;
  description : option string;
  priority : option Priority;
  status : option TaskStatus;
  category : option string;
  estimatedMinutes : option Z;
  dueDate : option Z;
}.
End InsertTask.

(** [Partial<Task>]: a field is [None] when the key is absent. *)
Module PartialTask.
Record t := mk {
  id : option string;
  title : option string;
  description : option (option string);
  priority : option (option Priority);
  status : option (option TaskStatus);
  category : option (option string);
  estimatedMinutes : option (option Z);
  dueDate : option (option Z);
  completedAt : option (option Z);
  createdAt : option Z;
}.
End PartialTask.

(** The output of [insertTaskSchema.partial().parse]: the keys of
    [InsertTask], each optional.  [priority] and [status] are not nullable. *)
Module PartialInsertTask.
Record t := mk {
  title : option string;
  description : option (option string);
  priority : option Priority;
  status : option TaskStatus;
  category : option (option string);
  estimatedMinutes : option (option Z);
  dueDate : option (option Z);
}.
End PartialInsertTask.

Module Note.
Record t := mk {
  id : string;
  title : string;
  content : string;
  createdAt : Z;
  updatedAt : Z;
}.
End Note.

Module InsertNote.
Record t := mk { title : string; content : string }.
End InsertNote.

Module PartialNote.
Record t := mk {
  id : option string;
  title : option string;
  content : option string;
  createdAt : option Z;
  updatedAt : option Z;
}.
End PartialNote.

(** The output of [insertNoteSchema.partial().parse]. *)
Module PartialInsertNote.
Record t := mk { title : option string; content : option string }.
End PartialInsertNote.

(** [{ ...task, ...updates }] *)
Definition spreadTask (task : Task.t) (updates : PartialTask.t) : Task.t :=
  {| Task.id := default (Task.id task) (PartialTask.id updates);
     Task.title := default (Task.title task) (PartialTask.title updates);
     Task.description :=
       default (Task.description task) (PartialTask.description updates);
     Task.priority :=
       default (Task.priority task) (PartialTask.priority updates);
     Task.status := default (Task.status task) (PartialTask.status updates);
     Task.category :=
       default (Task.category task) (PartialTask.category updates);
     Task.estimatedMinutes :=
       default (Task.estimatedMinutes task)
               (PartialTask.estimatedMinutes updates);
     Task.dueDate := default (Task.dueDate task) (PartialTask.dueDate updates);
     Task.completedAt :=
       default (Task.completedAt task) (PartialTask.completedAt updates);
     Task.createdAt :=
       default (Task.createdAt task) (PartialTask.createdAt updates) |}.

Definition getTask (tasks : gmap string Task.t) (id : string) : option Task.t :=
  tasks !! id.

Definition createTask
    (tasks : gmap string Task.t) (insertTask : InsertTask.t)
    (id : string) (now : Z) : gmap string Task.t * Task.t :=
  let task :=
    {| Task.title := InsertTask.title insertTask;
       Task.priority := InsertTask.priority insertTask;
       Task.status := InsertTask.status insertTask;
       Task.id := id;
       Task.createdAt := now;
       Task.completedAt := None;
       Task.dueDate := dateOrNull (InsertTask.dueDate insertTask);
       Task.description := strOrNull (InsertTask.description insertTask);
       Task.category := strOrNull (InsertTask.category insertTask);
       Task.estimatedMinutes :=
         numOrNull (InsertTask.estimatedMinutes insertTask) |} in
  (<[id := task]> tasks, task).

Definition updateTask
    (tasks : gmap string Task.t) (id : string) (updates : PartialTask.t)
    : gmap string Task.t * option Task.t :=
  match tasks !! id with
  | None => (tasks, None)
  | Some task =>
      let updated := spreadTask task updates in
      (<[id := updated]> tasks, Some updated)
  end.

Definition deleteTask (tasks : gmap string Task.t) (id : string)
    : gmap string Task.t * bool :=
  (delete id tasks, bool_decide (is_Some (tasks !! id))).

Definition getNote (notes : gmap string Note.t) (id : string) : option Note.t :=
  notes !! id.

(** [createdNow] and [updatedNow] are the two [new Date()] of the object
    literal, read in this order. *)
Definition createNote
    (notes : gmap string Note.t) (insertNote : InsertNote.t)
    (id : string) (createdNow updatedNow : Z) : gmap string Note.t * Note.t :=
  let note :=
    {| Note.title := InsertNote.title insertNote;
       Note.content := InsertNote.content insertNote;
       Note.id := id;
       Note.createdAt := createdNow;
       Note.updatedAt := updatedNow |} in
  (<[id := note]> notes, note).

(** [{ ...note, ...updates, updatedAt: new Date() }] *)
Definition updateNote
    (notes : gmap string Note.t) (id : string) (updates : PartialNote.t)
    (now : Z) : gmap string Note.t * option Note.t :=
  match notes !! id with
  | None => (notes, None)
  | Some note =>
      let updated :=
        {| Note.id := default (Note.id note) (PartialNote.id updates);
           Note.title := default (Note.title note) (PartialNote.title updates);
           Note.content :=
             default (Note.content note) (PartialNote.content updates);
           Note.createdAt :=
             default (Note.createdAt note) (PartialNote.createdAt updates);
           Note.updatedAt := now |} in
      (<[id := updated]> notes, Some updated)
  end.

Definition deleteNote (notes : gmap string Note.t) (id : string)
    : gmap string Note.t * bool :=
  (delete id notes, bool_decide (is_Some (notes !! id))).

(** ** The task and note routes ([server/routes.ts]) *)

(** What a route sends: [res.status(status).json(value)],
    [res.status(status).json({ error: message })], the same for the error
    thrown by a schema, or [res.status(204).send()]. *)
Inductive Answer (A : Type) :=
  | Json (status : Z) (value : A)
  | Failure (status : Z) (message : string)
  | SchemaFailure (status : Z)
  | NoContent.

Arguments Json {A} status value.
Arguments Failure {A} status message.
Arguments SchemaFailure {A} status.
Arguments NoContent {A}.

(** A parsed PATCH body as the [Partial<Task>] handed to [updateTask]: it
    has no [id], [completedAt] or [createdAt] key. *)
Definition taskUpdates (validatedData : PartialInsertTask.t) : PartialTask.t :=
  {| PartialTask.id := None;
     PartialTask.title := PartialInsertTask.title validatedData;
     PartialTask.description := PartialInsertTask.description validatedData;
     PartialTask.priority := Some <$> PartialInsertTask.priority validatedData;
     PartialTask.status := Some <$> PartialInsertTask.status validatedData;
     PartialTask.category := PartialInsertTask.category validatedData;
     PartialTask.estimatedMinutes :=
       PartialInsertTask.estimatedMinutes validatedData;
     PartialTask.dueDate := PartialInsertTask.dueDate validatedData;
     PartialTask.completedAt := None;
     PartialTask.createdAt := None |}.

Definition noteUpdates (validatedData : PartialInsertNote.t) : PartialNote.t :=
  {| PartialNote.id := None;
     PartialNote.title := PartialInsertNote.title validatedData;
     PartialNote.content := PartialInsertNote.content validatedData;
     PartialNote.createdAt := None;
     PartialNote.updatedAt := None |}.

(** GET /api/tasks/:id *)
Definition taskGet (tasks : gmap string Task.t) (id : string) : Answer Task.t :=
  match getTask tasks id with
  | None => Failure 404 "Task not found"
  | Some task => Json 200 task
  end.

(** POST /api/tasks.  [validatedData] is the result of
    [insertTaskSchema.parse(req.body)], [None] when it throws. *)
Definition taskCreate
    (tasks : gmap string Task.t) (validatedData : option InsertTask.t)
    (id : string) (now : Z) : gmap string Task.t * Answer Task.t :=
  match validatedData with
  | Some data =>
      let '(tasks', task) := createTask tasks data id now in
      (tasks', Json 201 task)
  | None => (tasks, SchemaFailure 400)
  end.

(** PATCH /api/tasks/:id *)
Definition taskPatch
    (tasks : gmap string Task.t) (id : string)
    (validatedData : option PartialInsertTask.t)
    : gmap string Task.t * Answer Task.t :=
  match validatedData with
  | Some data =>
      let '(tasks', task) := updateTask tasks id (taskUpdates data) in
      match task with
      | None => (tasks', Failure 404 "Task not found")
      | Some task => (tasks', Json 200 task)
      end
  | None => (tasks, SchemaFailure 400)
  end.

(** DELETE /api/tasks/:id *)
Definition taskDelete (tasks : gmap string Task.t) (id : string)
    : gmap string Task.t * Answer Task.t :=
  let '(tasks', success) := deleteTask tasks id in
  if negb success then (tasks', Failure 404 "Task not found")
  else (tasks', NoContent).

(** A request to the tasks API that can change the store. *)
Inductive TaskRequest :=
  | TaskPost (validatedData : option InsertTask.t) (id : string) (now : Z)
  | TaskPatch (id : string) (validatedData : option PartialInsertTask.t)
  | TaskDelete (id : string).

Definition handleTask (tasks : gmap string Task.t) (r : TaskRequest)
    : gmap string Task.t * Answer Task.t :=
  match r with
  | TaskPost validatedData id now => taskCreate tasks validatedData id now
  | TaskPatch id validatedData => taskPatch tasks id validatedData
  | TaskDelete id => taskDelete tasks id
  end.

Fixpoint serveTasks (tasks : gmap string Task.t) (rs : list TaskRequest)
    : gmap string Task.t :=
  match rs with
  | [] => tasks
  | r :: rs' => serveTasks (fst (handleTask tasks r)) rs'
  end.

(** POST /api/notes *)
Definition noteCreate
    (notes : gmap string Note.t) (validatedData : option InsertNote.t)
    (id : string) (createdNow updatedNow : Z)
    : gmap string Note.t * Answer Note.t :=
  match validatedData with
  | Some data =>
      let '(notes', note) := createNote notes data id createdNow updatedNow in
      (notes', Json 201 note)
  | None => (notes, SchemaFailure 400)
  end.

(** PATCH /api/notes/:id *)
Definition notePatch
    (notes : gmap string Note.t) (id : string)
    (validatedData : option PartialInsertNote.t) (now : Z)
    : gmap string Note.t * Answer Note.t :=
  match validatedData with
  | Some data =>
      let '(notes', note) := updateNote notes id (noteUpdates data) now in
      match note with
      | None => (notes', Failure 404 "Note not found")
      | Some note => (notes', Json 200 note)
      end
  | None => (notes, SchemaFailure 400)
  end.

(** DELETE /api/notes/:id *)
Definition noteDelete (notes : gmap string Note.t) (id : string)
    : gmap string Note.t * Answer Note.t :=
  let '(notes', success) := deleteNote notes id in
  if negb success then (notes', Failure 404 "Note not found")
  else (notes', NoContent).

(** A request to the notes API that can change the store, with the clock
    readings it makes, in the order it makes them. *)
Inductive NoteRequest :=
  | NotePost (validatedData : option InsertNote.t) (id : string)
             (createdNow updatedNow : Z)
  | NotePatch (id : string) (validatedData : option PartialInsertNote.t)
              (now : Z)
  | NoteDelete (id : string).

Definition handleNote (notes : gmap string Note.t) (r : NoteRequest)
    : gmap string Note.t * Answer Note.t :=
  match r with
  | NotePost validatedData id createdNow updatedNow =>
      noteCreate notes validatedData id createdNow updatedNow
  | NotePatch id validatedData now => notePatch notes id validatedData now
  | NoteDelete id => noteDelete notes id
  end.

Fixpoint serveNotes (notes : gmap string Note.t) (rs : list NoteRequest)
    : gmap string Note.t :=
  match rs with
  | [] => notes
  | r :: rs' => serveNotes (fst (handleNote notes r)) rs'
  end.

(** The clock readings a request hands to the storage, in order; a
    request whose body fails validation makes none. *)
Definition clockReadings (r : NoteRequest) : list Z :=
  match r with
  | NotePost (Some _) _ createdNow updatedNow => [createdNow; updatedNow]
  | NotePost None _ _ _ => []
  | NotePatch _ (Some _) now => [now]
  | NotePatch _ None _ => []
  | NoteDelete _ => []
  end.

(** A clock that never runs backwards: every reading in [ts] is at least
    the one before it, the first at least [t]. *)
Fixpoint nondecreasing (t : Z) (ts : list Z) : Prop :=
  match ts with
  | [] => True
  | t' :: ts' => t <= t' /\ nondecreasing t' ts'
  end.

(** ** The client pages

    A page receives the entities as JSON; a timestamp arrives as the ISO
    string of the server's [Date] and [new Date(string)] gives back its
    time value, so a timestamp is again its time value here.  A query that
    has not loaded yet is [undefined] ([None]). *)

(** [x || 0] *)
Definition numOrZero (x : option Z) : Z :=
  match x with
  | Some n => if n =? 0 then 0 else n
  | None => 0
  end.

(** [client/src/pages/habits.tsx].  [LocalTZA] is the time zone of the
    browser, [today] the [new Date()] of the call. *)
Definition isCompletedToday
    (LocalTZA : Z -> bool -> Z) (habit : Habit.t) (today : Z) : bool :=
  match Habit.lastCompletedAt habit with
  | None => false
  | Some lastCompleted =>
      (JSDate.getDate LocalTZA lastCompleted =? JSDate.getDate LocalTZA today)
      && (JSDate.getMonth LocalTZA lastCompleted
          =? JSDate.getMonth LocalTZA today)
      && (JSDate.getFullYear LocalTZA lastCompleted
          =? JSDate.getFullYear LocalTZA today)
  end.

(** [task.status === "completed"] *)
Definition statusIsCompleted (task : Task.t) : bool :=
  match Task.status task with
  | Some completed => true
  | _ => false
  end.

(** [client/src/pages/tasks.tsx]: the filter of the task list. *)
Inductive TaskFilter := FilterAll | FilterTodo | FilterCompleted.

Definition filteredTasks (filter : TaskFilter) (tasks : option (list Task.t))
    : option (list Task.t) :=
  List.filter
    (fun task =>
       match filter with
       | FilterAll => true
       | FilterTodo => negb (statusIsCompleted task)
       | FilterCompleted => statusIsCompleted task
       end)
  <$> tasks.

(** The figures of the dashboard page. *)
Module Dashboard.

Definition completedTasks (tasks : option (list Task.t)) : Z :=
  numOrZero
    ((fun l => Z.of_nat (length (List.filter statusIsCompleted l))) <$> tasks).

Definition totalTasks (tasks : option (list Task.t)) : Z :=
  numOrZero ((fun l => Z.of_nat (length l)) <$> tasks).

(** The "Active Tasks" card. *)
Definition activeTasks (tasks : option (list Task.t)) : Z :=
  numOrZero
    ((fun l =>
        Z.of_nat (length (List.filter (fun t => negb (statusIsCompleted t)) l)))
     <$> tasks).

Definition focusTime (sessions : option (list FocusSession.t)) : Z :=
  numOrZero
    ((fun l =>
        fold_left
          (fun acc s => acc + numOrZero (FocusSession.durationMinutes s)) l 0)
     <$> sessions).

Definition currentStreak (habits : option (list Habit.t)) : Z :=
  numOrZero
    ((fun l => fold_left (fun max h => Z.max max (Habit.currentStreak h)) l 0)
     <$> habits).

(** [Math.floor(focusTime / 60)] and [focusTime % 60], the hours and
    minutes shown under the focus time. *)
Definition focusHours (focusTime : Z) : Z := focusTime / 60.

Definition focusMinutes (focusTime : Z) : Z := Z.rem focusTime 60.

End Dashboard.

(** ** Runs of check-ins *)

(** Each time of [times] lies on the calendar day after the one before
    it, the first on the day after [t]. *)
Fixpoint consecutiveDays
    (LocalTZA : Z -> bool -> Z) (t : Z) (times : list Z) : Prop :=
  match times with
  | [] => True
  | t' :: rest => daysBetween LocalTZA t t' = 1 /\ consecutiveDays LocalTZA t' rest
  end.

(** Check-in requests for habit [id], one at each of [times]. *)
Definition checkIns (id : string) (times : list Z) : list HabitRequest :=
  map (ReqCheckIn id) times.

(** What holds of a habit stored under key [key] in every store the
    habits API can reach: its [id] is its key, its streaks are not
    negative, and it has a last completion exactly when its current streak
    is not 0. *)
Definition habitWellFormed (key : string) (h : Habit.t) : Prop :=
  Habit.id h = key
  /\ 0 <= Habit.currentStreak h
  /\ match Habit.lastCompletedAt h with
     | None => Habit.currentStreak h = 0 /\ Habit.bestStreak h = 0
     | Some _ => 1 <= Habit.currentStreak h
     end.

(** Every note carries its key and was updated no earlier than it was
    created and no later than clock reading [t]. *)
Definition notesOrdered (t : Z) (notes : gmap string Note.t) : Prop :=
  forall key note,
    getNote notes key = Some note ->
    Note.id note = key
    /\ Note.createdAt note <= Note.updatedAt note
    /\ Note.updatedAt note <= t.

(** * Properties *)

(** ** Calendar facts *)

Section CalendarFacts.
Import JSDate.

Local Ltac zdiv := Z.div_mod_to_equations; lia.

Local Ltac split_tests :=
  repeat match goal with
  | |- context [?a <? ?b] => destruct (Z.ltb_spec a b)
  | |- context [?a <=? ?b] => destruct (Z.leb_spec a b)
  | |- context [?a =? ?b] => destruct (Z.eqb_spec a b)
  end.

Lemma DayFromYear_succ y : DayFromYear (y + 1) = DayFromYear y + DaysInYear y.
Proof.
  unfold DayFromYear, DaysInYear. split_tests; cbn [negb]; zdiv.
Qed.

Lemma DaysInYear_cases y : DaysInYear y = 365 \/ DaysInYear y = 366.
Proof. unfold DaysInYear. repeat case_match; auto. Qed.

(** [YearFromDay d] is the year whose days contain [d]. *)
Lemma YearFromDay_spec d :
  DayFromYear (YearFromDay d) <= d < DayFromYear (YearFromDay d + 1).
Proof.
  unfold YearFromDay. cbv zeta. split_tests; unfold DayFromYear in *; zdiv.
Qed.

Lemma DayFromYear_mono y1 y2 : y1 <= y2 -> DayFromYear y1 <= DayFromYear y2.
Proof. unfold DayFromYear. intros. zdiv. Qed.

(** It is the largest such year, as ECMA-262 defines it. *)
Lemma YearFromDay_largest d y : DayFromYear y <= d -> y <= YearFromDay d.
Proof.
  intros Hy. destruct (Z_lt_le_dec (YearFromDay d) y) as [Hlt|]; [|lia].
  pose proof (YearFromDay_spec d) as [_ Hd].
  pose proof (DayFromYear_mono (YearFromDay d + 1) y). lia.
Qed.

Lemma DayWithinYear_bounds t :
  0 <= DayWithinYear t < DaysInYear (YearFromTime t).
Proof.
  unfold DayWithinYear, YearFromTime.
  pose proof (YearFromDay_spec (Day t)) as H.
  rewrite DayFromYear_succ in H. lia.
Qed.

Lemma MonthFromTime_range t : 0 <= MonthFromTime t <= 11.
Proof. unfold MonthFromTime. cbv zeta. split_tests; lia. Qed.

(** The day number is recovered from the three calendar fields; with
    another [date] the result moves by as many days. *)
Lemma MakeDay_fields t date :
  MakeDay (YearFromTime t) (MonthFromTime t) date
  = Day t + date - DateFromTime t.
Proof.
  pose proof (MonthFromTime_range t) as Hm.
  pose proof (DayWithinYear_bounds t) as Hd.
  unfold MakeDay. cbv zeta.
  replace (MonthFromTime t / 12) with 0 by zdiv.
  replace (MonthFromTime t mod 12) with (MonthFromTime t) by zdiv.
  rewrite Z.add_0_r.
  change (if DaysInYear (YearFromTime t) =? 366 then 1 else 0)
    with (InLeapYear t).
  unfold DateFromTime. cbv zeta.
  assert (Day t = DayFromYear (YearFromTime t) + DayWithinYear t) as ->
    by (unfold DayWithinYear; lia).
  revert Hm. unfold MonthFromTime. cbv zeta.
  split_tests; intros _; cbn [DayWithinYearOfMonth]; lia.
Qed.

Lemma Day_MakeDate d t : Day (MakeDate d (TimeWithinDay t)) = d.
Proof. unfold Day, MakeDate, TimeWithinDay, msPerDay. zdiv. Qed.

(** The calendar fields depend on the day number only. *)
Lemma fields_of_Day a b :
  Day a = Day b ->
  YearFromTime a = YearFromTime b
  /\ MonthFromTime a = MonthFromTime b
  /\ DateFromTime a = DateFromTime b.
Proof.
  intros H.
  assert (YearFromTime a = YearFromTime b) as Hy
    by (unfold YearFromTime; now rewrite H).
  assert (InLeapYear a = InLeapYear b) as Hl
    by (unfold InLeapYear; now rewrite Hy).
  assert (DayWithinYear a = DayWithinYear b) as Hd
    by (unfold DayWithinYear; now rewrite H, Hy).
  assert (MonthFromTime a = MonthFromTime b) as Hm
    by (unfold MonthFromTime; now rewrite Hd, Hl).
  repeat split; try assumption.
  unfold DateFromTime. now rewrite Hm, Hd, Hl.
Qed.

(** Conversely the three fields determine the day number. *)
Lemma Day_of_fields a b :
  YearFromTime a = YearFromTime b ->
  MonthFromTime a = MonthFromTime b ->
  DateFromTime a = DateFromTime b ->
  Day a = Day b.
Proof.
  intros Hy Hm Hd.
  pose proof (MakeDay_fields a (DateFromTime a)) as Ha.
  pose proof (MakeDay_fields b (DateFromTime b)) as Hb.
  rewrite Hy, Hm, Hd in Ha. lia.
Qed.

Variable LocalTZA : Z -> bool -> Z.

(** [setDate] moves the local time by whole days and converts it back to
    UTC. *)
Lemma setDate_local t date :
  setDate LocalTZA t date
  = UTC LocalTZA
      (LocalTime LocalTZA t + (date - getDate LocalTZA t) * msPerDay).
Proof.
  unfold setDate, getDate. cbv zeta. f_equal.
  unfold MakeDate. rewrite MakeDay_fields.
  unfold TimeWithinDay, Day, msPerDay. Z.div_mod_to_equations; lia.
Qed.

Lemma localDay_yesterday now :
  localDay LocalTZA (setDate LocalTZA now (getDate LocalTZA now - 1))
  = yesterdayDay LocalTZA now.
Proof.
  rewrite setDate_local. unfold localDay, yesterdayDay. do 3 f_equal. lia.
Qed.

(** The comparison of the handler holds exactly between two time values
    of one local calendar day. *)
Lemma sameCalendarFields_iff a b :
  sameCalendarFields LocalTZA a b = true
  <-> localDay LocalTZA a = localDay LocalTZA b.
Proof.
  unfold sameCalendarFields, getDate, getMonth, getFullYear, localDay.
  rewrite !andb_true_iff, !Z.eqb_eq. split.
  - intros [[Hd Hm] Hy]. now apply Day_of_fields.
  - intros H. apply fields_of_Day in H. tauto.
Qed.

Lemma sameCalendarFields_today a b :
  sameCalendarFields LocalTZA a b = true <-> daysBetween LocalTZA a b = 0.
Proof. rewrite sameCalendarFields_iff. unfold daysBetween. lia. Qed.

(** The second comparison of the handler holds exactly when the last
    completion is on the day the host puts [yesterday] on. *)
Lemma sameCalendarFields_yesterday a now :
  sameCalendarFields LocalTZA a
    (setDate LocalTZA now (getDate LocalTZA now - 1)) = true
  <-> localDay LocalTZA a = yesterdayDay LocalTZA now.
Proof. now rewrite sameCalendarFields_iff, localDay_yesterday. Qed.

Lemma yesterdayOnPreviousDay_notEarlier now :
  yesterdayOnPreviousDay LocalTZA now -> yesterdayNotEarlier LocalTZA now.
Proof. unfold yesterdayOnPreviousDay, yesterdayNotEarlier. lia. Qed.

End CalendarFacts.

(** ** Time zones given by transitions *)

Section ZoneFacts.
Import JSDate.

(** A local time read under the offset the zone picks for it is not
    dated before the transition that started this offset. *)
Lemma zoneOffset_local_lower transitions : forall offset from x,
  spaced offset transitions ->
  match transitions with
  | [] => True
  | (start, _) :: _ => from <= start
  end ->
  from + offset <= x ->
  from <= x - zoneOffset offset transitions x false.
Proof.
  induction transitions as [|[start next] rest IH];
    intros offset from x Hsp Hfrom Hx; cbn [zoneOffset]; [lia|].
  destruct (Z.ltb_spec x (start + Z.max offset next)); [lia|].
  destruct Hsp as [Hnext Hsp].
  apply Z.le_trans with start; [exact Hfrom|].
  apply IH; [exact Hsp | destruct rest as [|[start' ?] ?]; [exact I | lia] | lia].
Qed.

(** Converting a local time to UTC and back never gives an earlier local
    time: a repeated local time is kept, a skipped one moves forward. *)
Lemma zoneOffset_roundTrip_le transitions : forall offset x,
  spaced offset transitions ->
  zoneOffset offset transitions x false
  <= zoneOffset offset transitions
       (x - zoneOffset offset transitions x false) true.
Proof.
  induction transitions as [|[start next] rest IH]; intros offset x Hsp;
    cbn [zoneOffset]; [lia|].
  destruct Hsp as [Hnext Hsp].
  destruct (Z.ltb_spec x (start + Z.max offset next)) as [Hlt|Hge].
  - destruct (Z.ltb_spec (x - offset) start); [lia|].
    destruct rest as [|[start' next'] rest']; cbn [zoneOffset]; [lia|].
    destruct (Z.ltb_spec (x - offset) start'); lia.
  - assert (start <= x - zoneOffset next rest x false) as Hlow.
    { apply zoneOffset_local_lower;
        [exact Hsp | destruct rest as [|[start' ?] ?]; [exact I | lia] | lia]. }
    destruct (Z.ltb_spec (x - zoneOffset next rest x false) start); [lia|].
    now apply IH.
Qed.

Lemma roundTrip_le_spaced offset transitions x :
  spaced offset transitions ->
  x <= LocalTime (zoneOffset offset transitions)
         (UTC (zoneOffset offset transitions) x).
Proof.
  intros Hsp. unfold LocalTime, UTC.
  pose proof (zoneOffset_roundTrip_le transitions offset x Hsp). lia.
Qed.

(** On a host whose zone is given by spaced transitions, [yesterday] is
    never put before the day before [now]. *)
Lemma yesterdayNotEarlier_spaced offset transitions now :
  spaced offset transitions ->
  yesterdayNotEarlier (zoneOffset offset transitions) now.
Proof.
  intros Hsp. unfold yesterdayNotEarlier, yesterdayDay, localDay.
  pose proof (roundTrip_le_spaced offset transitions
                (LocalTime (zoneOffset offset transitions) now - msPerDay) Hsp)
    as Hle.
  revert Hle. generalize (LocalTime (zoneOffset offset transitions) now).
  intros lt.
  generalize (LocalTime (zoneOffset offset transitions)
                (UTC (zoneOffset offset transitions) (lt - msPerDay))).
  intros back Hle. unfold Day, msPerDay in *. Z.div_mod_to_equations; lia.
Qed.

(** Without transitions [yesterday] is 24 hours before [now]. *)
Lemma yesterdayOnPreviousDay_fixedOffset offset now :
  yesterdayOnPreviousDay (fixedOffset offset) now.
Proof.
  unfold yesterdayOnPreviousDay, yesterdayDay, localDay, LocalTime, UTC,
    fixedOffset. cbn [zoneOffset].
  unfold Day, msPerDay. Z.div_mod_to_equations; lia.
Qed.

End ZoneFacts.

(** ** Habit check-in *)

Section HabitFacts.

Variable LocalTZA : Z -> bool -> Z.

(** What a check-in on an existing habit does, in terms of the calendar
    days of the last completion, of [now] and of the host's [yesterday]. *)
Lemma habitCheckIn_outcome st id now habit :
  getHabit st id = Some habit ->
  (habitCheckIn LocalTZA st id now = (st, AlreadyCheckedInToday)
   /\ exists lc, Habit.lastCompletedAt habit = Some lc
                 /\ daysBetween LocalTZA lc now = 0)
  \/ (exists h',
        habitCheckIn LocalTZA st id now
        = (setHabits st (<[id := h']> (habits st)),
           {| status := 200; body := BodyHabit (Some h') |})
        /\ h' = {| Habit.id := Habit.id habit;
                   Habit.name := Habit.name habit;
                   Habit.description := Habit.description habit;
                   Habit.frequency := Habit.frequency habit;
                   Habit.currentStreak := Habit.currentStreak h';
                   Habit.bestStreak :=
                     Z.max (Habit.bestStreak habit) (Habit.currentStreak h');
                   Habit.lastCompletedAt := Some now;
                   Habit.createdAt := Habit.createdAt habit |}
        /\ Habit.currentStreak h'
           = match Habit.lastCompletedAt habit with
             | Some lc =>
                 if JSDate.localDay LocalTZA lc =? yesterdayDay LocalTZA now
                 then Habit.currentStreak habit + 1 else 1
             | None => 1
             end
        /\ forall lc, Habit.lastCompletedAt habit = Some lc ->
                      daysBetween LocalTZA lc now <> 0).
Proof.
  intros Hget. unfold habitCheckIn. rewrite Hget. cbv zeta.
  unfold updateHabit. unfold getHabit in Hget. rewrite Hget.
  destruct (Habit.lastCompletedAt habit) as [lc|] eqn:Hlc.
  - destruct (sameCalendarFields LocalTZA lc now) eqn:Hsame.
    + left. split; [reflexivity|]. exists lc. split; [reflexivity|].
      now apply sameCalendarFields_today.
    + right. eexists. split; [reflexivity|]. cbn.
      assert (daysBetween LocalTZA lc now <> 0) as Hne.
      { intros H0. apply sameCalendarFields_today in H0. congruence. }
      repeat split.
      * destruct (sameCalendarFields LocalTZA lc (JSDate.setDate _ _ _)) eqn:Hy.
        -- apply sameCalendarFields_yesterday in Hy. rewrite Hy, Z.eqb_refl.
           reflexivity.
        -- destruct (Z.eqb_spec (JSDate.localDay LocalTZA lc)
                                (yesterdayDay LocalTZA now)) as [H1|];
             [|reflexivity].
           apply sameCalendarFields_yesterday in H1. congruence.
      * intros ? [= <-]. exact Hne.
  - right. eexists. split; [reflexivity|]. cbn.
    repeat split. discriminate.
Qed.

Lemma habitCheckIn_missing st id now :
  getHabit st id = None ->
  habitCheckIn LocalTZA st id now
  = (st, {| status := 404; body := BodyError "Habit not found" |}).
Proof. intros H. unfold habitCheckIn. now rewrite H. Qed.

Lemma getHabit_setHabits_insert st id h id' :
  getHabit (setHabits st (<[id := h]> (habits st))) id'
  = if decide (id = id') then Some h else getHabit st id'.
Proof. unfold getHabit, setHabits. cbn. apply lookup_insert. Qed.






End HabitFacts.

(** C1.  A check-in on a habit whose last completion has the same year,
    month and day of month as [now] is answered with
    [AlreadyCheckedInToday]; the store, and so the habit, is unchanged. *)
Theorem checkIn_same_day_rejected LocalTZA st id now habit lc :
  getHabit st id = Some habit ->
  Habit.lastCompletedAt habit = Some lc ->
  JSDate.getFullYear LocalTZA lc = JSDate.getFullYear LocalTZA now ->
  JSDate.getMonth LocalTZA lc = JSDate.getMonth LocalTZA now ->
  JSDate.getDate LocalTZA lc = JSDate.getDate LocalTZA now ->
  habitCheckIn LocalTZA st id now = (st, AlreadyCheckedInToday)
  /\ getHabit (fst (habitCheckIn LocalTZA st id now)) id = Some habit.
Proof.
  intros Hget Hlc Hy Hm Hd.
  assert (habitCheckIn LocalTZA st id now = (st, AlreadyCheckedInToday)) as ->.
  { unfold habitCheckIn. rewrite Hget. cbv zeta. rewrite Hlc.
    unfold sameCalendarFields. rewrite Hy, Hm, Hd, !Z.eqb_refl. reflexivity. }
  split; [reflexivity | exact Hget].
Qed.

Lemma checkIn_same_day_rejected_witness :
  let st := habitStore (sampleHabit 4 4 (Some (atHour 19783 0))) in
  habitCheckIn utcZone st "h1" (atHour 19783 1) = (st, AlreadyCheckedInToday)
  /\ getHabit (fst (habitCheckIn utcZone st "h1" (atHour 19783 1))) "h1"
     = Some (sampleHabit 4 4 (Some (atHour 19783 0))).
Proof.
  intros st.
  apply (checkIn_same_day_rejected utcZone st "h1" (atHour 19783 1)
           (sampleHabit 4 4 (Some (atHour 19783 0))) (atHour 19783 0));
    vm_compute; reflexivity.
Defined.

(** C2.  The claim is that a check-in one calendar day after the last
    completion stores the old current streak plus 1.  The handler misses a
    case of it.  On a server in Pyongyang, for a habit last completed on
    4 May 2018 at noon and checked in on 5 May 2018 at 23:45, the two
    calendar days are one apart; but 23:45 on 4 May was skipped when the
    clocks went from 23:30 to midnight, the runtime puts [yesterday] at
    00:15 on 5 May, the test for a consecutive day fails and the stored
    current streak is 1, not 4. *)
Theorem checkIn_next_day_skipped_yesterday :
  daysBetween pyongyang2018 1525404600000 1525531500000 = 1
  /\ (JSDate.getFullYear pyongyang2018 1525404600000,
      JSDate.getMonth pyongyang2018 1525404600000,
      JSDate.getDate pyongyang2018 1525404600000) = (2018, 4, 4)
  /\ (JSDate.getFullYear pyongyang2018 1525531500000,
      JSDate.getMonth pyongyang2018 1525531500000,
      JSDate.getDate pyongyang2018 1525531500000) = (2018, 4, 5)
  /\ JSDate.setDate pyongyang2018 1525531500000
       (JSDate.getDate pyongyang2018 1525531500000 - 1)
     = 1525446900000
  /\ (JSDate.getFullYear pyongyang2018 1525446900000,
      JSDate.getMonth pyongyang2018 1525446900000,
      JSDate.getDate pyongyang2018 1525446900000) = (2018, 4, 5)
  /\ habitCheckIn pyongyang2018
       (habitStore (sampleHabit 3 5 (Some 1525404600000))) "h1" 1525531500000
     = (habitStore (sampleHabit 1 5 (Some 1525531500000)),
        {| status := 200;
           body := BodyHabit (Some (sampleHabit 1 5 (Some 1525531500000))) |}).
Proof. repeat split; vm_compute; reflexivity. Qed.

(** C3.  On a first check-in (no last completion) and on a check-in two or
    more calendar days after the last one, the check-in succeeds and the
    stored current streak is exactly 1.  For the second case the host must
    put [yesterday] no earlier than the day before [now], as every host
    that reads skipped and repeated local times with the offset before the
    transition does ([yesterdayNotEarlier_spaced]). *)
Theorem checkIn_first_or_gap_gives_one LocalTZA st id now habit :
  getHabit st id = Some habit ->
  (Habit.lastCompletedAt habit = None
   \/ exists lc, Habit.lastCompletedAt habit = Some lc
                 /\ 2 <= daysBetween LocalTZA lc now
                 /\ yesterdayNotEarlier LocalTZA now) ->
  exists h',
    habitCheckIn LocalTZA st id now
    = (setHabits st (<[id := h']> (habits st)),
       {| status := 200; body := BodyHabit (Some h') |})
    /\ getHabit (fst (habitCheckIn LocalTZA st id now)) id = Some h'
    /\ Habit.currentStreak h' = 1.
Proof.
  intros Hget Hgap.
  destruct (habitCheckIn_outcome LocalTZA st id now habit Hget)
    as [[_ (lc' & Hlc' & H0)] | (h' & Heq & _ & Hcs & _)].
  - destruct Hgap as [Hnone | (lc & Hlc & Hge & _)]; [congruence|].
    rewrite Hlc in Hlc'. injection Hlc' as <-. lia.
  - exists h'. rewrite Heq. split; [reflexivity|]. split.
    + cbn [fst]. rewrite getHabit_setHabits_insert. now case_decide.
    + rewrite Hcs.
      destruct Hgap as [-> | (lc & -> & Hge & Hy)]; [reflexivity|].
      unfold yesterdayNotEarlier in Hy. unfold daysBetween in Hge.
      destruct (Z.eqb_spec (JSDate.localDay LocalTZA lc)
                           (yesterdayDay LocalTZA now)); [lia|reflexivity].
Qed.

Lemma checkIn_first_or_gap_gives_one_witness :
  exists h',
    habitCheckIn newYork2024 (habitStore (sampleHabit 3 5 (Some 1710045000000)))
                 "h1" 1710131400000
    = (setHabits (habitStore (sampleHabit 3 5 (Some 1710045000000)))
         (<["h1" := h']>
            (habits (habitStore (sampleHabit 3 5 (Some 1710045000000))))),
       {| status := 200; body := BodyHabit (Some h') |})
    /\ getHabit
         (fst (habitCheckIn newYork2024
                 (habitStore (sampleHabit 3 5 (Some 1710045000000)))
                 "h1" 1710131400000)) "h1" = Some h'
    /\ Habit.currentStreak h' = 1.
Proof.
  apply (checkIn_first_or_gap_gives_one newYork2024
           (habitStore (sampleHabit 3 5 (Some 1710045000000))) "h1"
           1710131400000 (sampleHabit 3 5 (Some 1710045000000))).
  - vm_compute; reflexivity.
  - right. exists 1710045000000. split; [reflexivity|].
    split; vm_compute; discriminate.
Defined.





(** ** Focus sessions *)

Section SessionFacts.

Lemma getFocusSession_setFocusSessions_insert st id s id' :
  getFocusSession (setFocusSessions st (<[id := s]> (focusSessions st))) id'
  = if decide (id = id') then Some s else getFocusSession st id'.
Proof. unfold getFocusSession, setFocusSessions. cbn. apply lookup_insert. Qed.

Lemma truthy_key key : key <> "" -> truthy (JsString key) = true.
Proof.
  intros Hne. cbn. destruct (String.eqb_spec key ""); [contradiction|reflexivity].
Qed.

(** Ending an existing session: the record stored and returned. *)
Lemma focusSessionEnd_found st key now session :
  key <> "" ->
  getFocusSession st key = Some session ->
  let s' :=
    {| FocusSession.id := FocusSession.id session;
       FocusSession.startTime := FocusSession.startTime session;
       FocusSession.endTime := Some now;
       FocusSession.durationMinutes :=
         Some ((now - FocusSession.startTime session) / 60000);
       FocusSession.sessionType := FocusSession.sessionType session;
       FocusSession.taskId := FocusSession.taskId session;
       FocusSession.createdAt := FocusSession.createdAt session |} in
  focusSessionEnd st (JsString key) now
  = (setFocusSessions st (<[key := s']> (focusSessions st)),
     {| status := 200; body := BodySession (Some s') |}).
Proof.
  intros Hne Hget s'. unfold focusSessionEnd.
  rewrite (truthy_key key Hne). cbn [negb]. rewrite Hget. cbv zeta.
  unfold updateFocusSession. unfold getFocusSession in Hget. rewrite Hget.
  reflexivity.
Qed.

(** A request whose id names no session leaves the store alone. *)
Lemma focusSessionEnd_unknown st id now :
  (forall key, id = JsString key -> getFocusSession st key = None) ->
  focusSessionEnd st id now
  = (st, if truthy id then SessionNotFound else SessionIdRequired).
Proof.
  intros Hnone. unfold focusSessionEnd.
  destruct (truthy id) eqn:Ht; cbn [negb]; [|reflexivity].
  destruct id; try reflexivity.
  now rewrite (Hnone s eq_refl).
Qed.

End SessionFacts.

(** C5, as the code has it.  Ending an existing session at [now] stores
    [endTime = now] and [durationMinutes = floor ((now - startTime) / 60000)]:
    the largest [d] with [60000 * d <= now - startTime].  When
    [startTime <= now] this drops the partial minute (truncation toward
    zero); when [now < startTime] the stored value is negative. *)
Theorem end_sets_endTime_and_floor_duration st key now session :
  key <> "" ->
  getFocusSession st key = Some session ->
  exists s' d,
    focusSessionEnd st (JsString key) now
    = (setFocusSessions st (<[key := s']> (focusSessions st)),
       {| status := 200; body := BodySession (Some s') |})
    /\ getFocusSession (fst (focusSessionEnd st (JsString key) now)) key
       = Some s'
    /\ FocusSession.endTime s' = Some now
    /\ FocusSession.durationMinutes s' = Some d
    /\ d = (now - FocusSession.startTime session) / 60000
    /\ 60000 * d <= now - FocusSession.startTime session < 60000 * d + 60000
    /\ (FocusSession.startTime session <= now ->
        d = minutesTruncatedTowardZero (FocusSession.startTime session) now)
    /\ (now < FocusSession.startTime session -> d < 0).
Proof.
  intros Hne Hget.
  pose proof (focusSessionEnd_found st key now session Hne Hget) as Hend.
  cbv zeta in Hend. rewrite Hend.
  eexists. exists ((now - FocusSession.startTime session) / 60000).
  split; [reflexivity|]. cbn [fst].
  split; [rewrite getFocusSession_setFocusSessions_insert; now case_decide|].
  cbn. repeat split.
  - Z.div_mod_to_equations; lia.
  - Z.div_mod_to_equations; lia.
  - intros Hle. unfold minutesTruncatedTowardZero.
    rewrite Z.quot_div_nonneg by lia. reflexivity.
  - intros Hlt. Z.div_mod_to_equations; lia.
Qed.

Lemma end_sets_endTime_and_floor_duration_witness :
  exists s' d,
    focusSessionEnd (sessionStore (sampleSession 36000000 None None))
                    (JsString "s1") 37530000
    = (setFocusSessions (sessionStore (sampleSession 36000000 None None))
         (<["s1" := s']>
            (focusSessions (sessionStore (sampleSession 36000000 None None)))),
       {| status := 200; body := BodySession (Some s') |})
    /\ getFocusSession
         (fst (focusSessionEnd (sessionStore (sampleSession 36000000 None None))
                               (JsString "s1") 37530000)) "s1" = Some s'
    /\ FocusSession.endTime s' = Some 37530000
    /\ FocusSession.durationMinutes s' = Some d
    /\ d = (37530000 - 36000000) / 60000
    /\ 60000 * d <= 37530000 - 36000000 < 60000 * d + 60000
    /\ (36000000 <= 37530000 ->
        d = minutesTruncatedTowardZero 36000000 37530000)
    /\ (37530000 < 36000000 -> d < 0).
Proof.
  apply (end_sets_endTime_and_floor_duration
           (sessionStore (sampleSession 36000000 None None)) "s1" 37530000
           (sampleSession 36000000 None None)).
  - discriminate.
  - vm_compute; reflexivity.
Defined.

(** C5, as stated, fails: a session ended 30 seconds before its start gets
    [durationMinutes = -1], whereas truncation toward zero gives 0. *)
Lemma end_before_start_not_truncated :
  focusSessionEnd (sessionStore (sampleSession 60000 None None))
                  (JsString "s1") 30000
  = (sessionStore (sampleSession 60000 (Some 30000) (Some (-1))),
     {| status := 200;
        body := BodySession
                  (Some (sampleSession 60000 (Some 30000) (Some (-1)))) |})
  /\ minutesTruncatedTowardZero 60000 30000 = 0
  /\ FocusSession.durationMinutes (sampleSession 60000 (Some 30000) (Some (-1)))
     <> Some (minutesTruncatedTowardZero 60000 30000).
Proof. repeat split; vm_compute; congruence. Qed.

(** C6.  Ending a session that is already closed does not fail: the stored
    [endTime] becomes the new [now] and [durationMinutes] is computed again
    from the [startTime], which does not change. *)
Theorem end_closed_session_overwrites st key now session closedAt :
  key <> "" ->
  getFocusSession st key = Some session ->
  FocusSession.endTime session = Some closedAt ->
  exists s',
    focusSessionEnd st (JsString key) now
    = (setFocusSessions st (<[key := s']> (focusSessions st)),
       {| status := 200; body := BodySession (Some s') |})
    /\ getFocusSession (fst (focusSessionEnd st (JsString key) now)) key
       = Some s'
    /\ FocusSession.endTime s' = Some now
    /\ FocusSession.durationMinutes s'
       = Some ((now - FocusSession.startTime session) / 60000)
    /\ FocusSession.startTime s' = FocusSession.startTime session.
Proof.
  intros Hne Hget _.
  pose proof (focusSessionEnd_found st key now session Hne Hget) as Hend.
  cbv zeta in Hend. rewrite Hend. eexists.
  split; [reflexivity|]. cbn [fst].
  split; [rewrite getFocusSession_setFocusSessions_insert; now case_decide|].
  cbn. repeat split.
Qed.

Lemma end_closed_session_overwrites_witness :
  exists s',
    focusSessionEnd
      (sessionStore (sampleSession 36000000 (Some 37530000) (Some 25)))
      (JsString "s1") 39000000
    = (setFocusSessions
         (sessionStore (sampleSession 36000000 (Some 37530000) (Some 25)))
         (<["s1" := s']>
            (focusSessions
               (sessionStore
                  (sampleSession 36000000 (Some 37530000) (Some 25))))),
       {| status := 200; body := BodySession (Some s') |})
    /\ getFocusSession
         (fst (focusSessionEnd
                 (sessionStore
                    (sampleSession 36000000 (Some 37530000) (Some 25)))
                 (JsString "s1") 39000000)) "s1" = Some s'
    /\ FocusSession.endTime s' = Some 39000000
    /\ FocusSession.durationMinutes s' = Some ((39000000 - 36000000) / 60000)
    /\ FocusSession.startTime s' = 36000000.
Proof.
  apply (end_closed_session_overwrites
           (sessionStore (sampleSession 36000000 (Some 37530000) (Some 25)))
           "s1" 39000000
           (sampleSession 36000000 (Some 37530000) (Some 25)) 37530000).
  - discriminate.
  - vm_compute; reflexivity.
  - reflexivity.
Defined.

(** C7, as the code has it.  A request to end a session whose id names no
    stored session changes nothing in the store.  It is answered with
    [SessionNotFound] when the id is truthy (a non-empty string, in
    particular), and with [SessionIdRequired] when it is missing or empty. *)
Theorem end_unknown_session_fails st id now :
  (forall key, id = JsString key -> getFocusSession st key = None) ->
  fst (focusSessionEnd st id now) = st
  /\ (truthy id = true -> snd (focusSessionEnd st id now) = SessionNotFound)
  /\ (truthy id = false -> snd (focusSessionEnd st id now) = SessionIdRequired).
Proof.
  intros Hnone. rewrite (focusSessionEnd_unknown st id now Hnone). cbn [fst snd].
  split; [reflexivity|]. split; intros ->; reflexivity.
Qed.

Lemma end_unknown_session_fails_witness :
  fst (focusSessionEnd (sessionStore (sampleSession 0 None None))
                       (JsString "s2") 60000)
  = sessionStore (sampleSession 0 None None)
  /\ (truthy (JsString "s2") = true ->
      snd (focusSessionEnd (sessionStore (sampleSession 0 None None))
                           (JsString "s2") 60000) = SessionNotFound)
  /\ (truthy (JsString "s2") = false ->
      snd (focusSessionEnd (sessionStore (sampleSession 0 None None))
                           (JsString "s2") 60000) = SessionIdRequired).
Proof.
  apply (end_unknown_session_fails (sessionStore (sampleSession 0 None None))
           (JsString "s2") 60000).
  intros key [= <-]. vm_compute; reflexivity.
Defined.

(** C7, as stated, fails: the empty id names no session, yet the answer is
    400 "Session ID is required", not [SessionNotFound]. *)
Lemma end_empty_id_is_not_NotFound :
  getFocusSession (sessionStore (sampleSession 0 None None)) "" = None
  /\ focusSessionEnd (sessionStore (sampleSession 0 None None))
                     (JsString "") 60000
     = (sessionStore (sampleSession 0 None None), SessionIdRequired)
  /\ SessionIdRequired <> SessionNotFound.
Proof. repeat split; vm_compute; congruence. Qed.

(** C9.  Whenever the start handler creates a session (answers 201), the
    session it stores under the new id and returns has [startTime = now],
    [endTime = null] and [durationMinutes = null]. *)
Theorem start_creates_open_session st reqBody now id createdNow :
  status (snd (focusSessionStart st reqBody now id createdNow)) = 201 ->
  exists s,
    focusSessionStart st reqBody now id createdNow
    = (setFocusSessions st (<[id := s]> (focusSessions st)),
       {| status := 201; body := BodySession (Some s) |})
    /\ getFocusSession (fst (focusSessionStart st reqBody now id createdNow)) id
       = Some s
    /\ FocusSession.startTime s = now
    /\ FocusSession.endTime s = None
    /\ FocusSession.durationMinutes s = None.
Proof.
  unfold focusSessionStart, insertFocusSessionSchema_parse.
  destruct (parseSessionType _) as [ty|]; [|discriminate].
  destruct (parseTaskId _) as [task|]; [|discriminate].
  intros _. cbn. eexists. split; [reflexivity|].
  split; [|repeat split].
  rewrite getFocusSession_setFocusSessions_insert. now case_decide.
Qed.

Lemma start_creates_open_session_witness :
  exists s,
    focusSessionStart newMemStorage
      {| StartBody.sessionType := JsUndefined; StartBody.taskId := JsUndefined |}
      36000000 "s1" 36000001
    = (setFocusSessions newMemStorage
         (<["s1" := s]> (focusSessions newMemStorage)),
       {| status := 201; body := BodySession (Some s) |})
    /\ getFocusSession
         (fst (focusSessionStart newMemStorage
                 {| StartBody.sessionType := JsUndefined;
                    StartBody.taskId := JsUndefined |}
                 36000000 "s1" 36000001)) "s1" = Some s
    /\ FocusSession.startTime s = 36000000
    /\ FocusSession.endTime s = None
    /\ FocusSession.durationMinutes s = None.
Proof.
  apply (start_creates_open_session newMemStorage
           {| StartBody.sessionType := JsUndefined;
              StartBody.taskId := JsUndefined |}
           36000000 "s1" 36000001).
  vm_compute; reflexivity.
Defined.

(** C10.  [createFocusSession] stores [null] for a payload whose
    [durationMinutes] is 0, so no created session has [durationMinutes = 0];
    ending a session less than a minute after its start does store 0. *)
Theorem createFocusSession_zero_duration_is_null :
  (forall st insertSession id now,
     InsertFocusSession.durationMinutes insertSession = Some 0 ->
     FocusSession.durationMinutes
       (snd (createFocusSession st insertSession id now)) = None
     /\ getFocusSession (fst (createFocusSession st insertSession id now)) id
        = Some (snd (createFocusSession st insertSession id now)))
  /\ (forall st insertSession id now,
        FocusSession.durationMinutes
          (snd (createFocusSession st insertSession id now)) <> Some 0)
  /\ (forall st key now session,
        key <> "" ->
        getFocusSession st key = Some session ->
        FocusSession.startTime session <= now
          < FocusSession.startTime session + 60000 ->
        exists s',
          getFocusSession (fst (focusSessionEnd st (JsString key) now)) key
          = Some s'
          /\ FocusSession.durationMinutes s' = Some 0).
Proof.
  split; [|split].
  - intros st insertSession id now H0. cbn. rewrite H0. cbn.
    split; [reflexivity|].
    rewrite getFocusSession_setFocusSessions_insert. now case_decide.
  - intros st insertSession id now. cbn. unfold numOrNull.
    destruct (InsertFocusSession.durationMinutes insertSession) as [n|];
      [|discriminate].
    destruct (Z.eqb_spec n 0); [discriminate|congruence].
  - intros st key now session Hne Hget Hnow.
    pose proof (focusSessionEnd_found st key now session Hne Hget) as Hend.
    cbv zeta in Hend. rewrite Hend. cbn [fst]. eexists.
    split; [rewrite getFocusSession_setFocusSessions_insert; now case_decide|].
    cbn. f_equal. Z.div_mod_to_equations; lia.
Qed.

Lemma createFocusSession_zero_duration_is_null_witness :
  (FocusSession.durationMinutes
     (snd (createFocusSession newMemStorage
             {| InsertFocusSession.startTime := 36000000;
                InsertFocusSession.endTime := Some 36000000;
                InsertFocusSession.durationMinutes := Some 0;
                InsertFocusSession.sessionType := Some focus;
                InsertFocusSession.taskId := None |} "s1" 36000001)) = None
   /\ getFocusSession
        (fst (createFocusSession newMemStorage
                {| InsertFocusSession.startTime := 36000000;
                   InsertFocusSession.endTime := Some 36000000;
                   InsertFocusSession.durationMinutes := Some 0;
                   InsertFocusSession.sessionType := Some focus;
                   InsertFocusSession.taskId := None |} "s1" 36000001)) "s1"
      = Some (snd (createFocusSession newMemStorage
                     {| InsertFocusSession.startTime := 36000000;
                        InsertFocusSession.endTime := Some 36000000;
                        InsertFocusSession.durationMinutes := Some 0;
                        InsertFocusSession.sessionType := Some focus;
                        InsertFocusSession.taskId := None |} "s1" 36000001)))
  /\ exists s',
       getFocusSession
         (fst (focusSessionEnd (sessionStore (sampleSession 36000000 None None))
                               (JsString "s1") 36030000)) "s1" = Some s'
       /\ FocusSession.durationMinutes s' = Some 0.
Proof.
  split.
  - apply (proj1 createFocusSession_zero_duration_is_null). reflexivity.
  - apply (proj2 (proj2 createFocusSession_zero_duration_is_null)
             (sessionStore (sampleSession 36000000 None None)) "s1" 36030000
             (sampleSession 36000000 None None)).
    + discriminate.
    + vm_compute; reflexivity.
    + vm_compute. split; [discriminate|reflexivity].
Defined.

(** ** The scenarios of the specification *)

(** Streak 3, best 5, last completed yesterday: check-in gives 4 and 5. *)
Example scenario_consecutive_day :
  snd (habitCheckIn utcZone (habitStore (sampleHabit 3 5 (Some (atHour 19782 20))))
                    "h1" (atHour 19783 8))
  = {| status := 200;
       body := BodyHabit (Some (sampleHabit 4 5 (Some (atHour 19783 8)))) |}.
Proof. vm_compute; reflexivity. Qed.

(** Streak 4, best 4, last completed three days ago: check-in gives 1 and 4. *)
Example scenario_gap :
  snd (habitCheckIn utcZone (habitStore (sampleHabit 4 4 (Some (atHour 19780 8))))
                    "h1" (atHour 19783 8))
  = {| status := 200;
       body := BodyHabit (Some (sampleHabit 1 4 (Some (atHour 19783 8)))) |}.
Proof. vm_compute; reflexivity. Qed.

(** Two check-ins on one calendar day: the second is rejected and the
    store is the one the first left. *)
Example scenario_twice_a_day :
  let st1 :=
    fst (habitCheckIn utcZone (habitStore (sampleHabit 3 5 (Some (atHour 19782 20))))
                      "h1" (atHour 19783 8)) in
  habitCheckIn utcZone st1 "h1" (atHour 19783 22) = (st1, AlreadyCheckedInToday).
Proof. vm_compute; reflexivity. Qed.

(** The last evening hour and the first morning hour are consecutive days
    although only two hours apart; 23 hours apart within one day is not. *)
Example scenario_not_a_rolling_window :
  Habit.currentStreak <$>
    getHabit (fst (habitCheckIn utcZone
                     (habitStore (sampleHabit 3 5 (Some (atHour 19782 23))))
                     "h1" (atHour 19783 1))) "h1" = Some 4
  /\ snd (habitCheckIn utcZone (habitStore (sampleHabit 3 5 (Some (atHour 19783 0))))
                       "h1" (atHour 19783 23)) = AlreadyCheckedInToday.
Proof. split; vm_compute; reflexivity. Qed.

(** The month boundary: 29 February 2024 (day 19782) is the day before
    1 March, and [setDate 0] on 1 March lands on it. *)
Example scenario_month_boundary :
  (JSDate.getFullYear utcZone (atHour 19783 8), JSDate.getMonth utcZone (atHour 19783 8),
   JSDate.getDate utcZone (atHour 19783 8)) = (2024, 2, 1)
  /\ JSDate.setDate utcZone (atHour 19783 8) (JSDate.getDate utcZone (atHour 19783 8) - 1)
     = atHour 19782 8
  /\ (JSDate.getFullYear utcZone (atHour 19782 8), JSDate.getMonth utcZone (atHour 19782 8),
      JSDate.getDate utcZone (atHour 19782 8)) = (2024, 1, 29).
Proof. repeat split; vm_compute; reflexivity. Qed.

(** A session started at 10:00:00 and ended at 10:25:30 lasts 25 minutes. *)
Example scenario_session_duration :
  snd (focusSessionEnd (sessionStore (sampleSession 36000000 None None))
                       (JsString "s1") 37530000)
  = {| status := 200;
       body := BodySession
                 (Some (sampleSession 36000000 (Some 37530000) (Some 25))) |}.
Proof. vm_compute; reflexivity. Qed.

(** Daylight saving in New York, 2024.  Two check-ins 24 hours apart
    across the start of daylight saving fall on 9 and 11 March, so the
    streak starts again; two check-ins 48 and a half hours apart across its
    end fall on 3 and 4 November, so the streak goes on; and two check-ins
    24 hours apart on 3 November, a day of 25 hours, are on the same day. *)
Example scenario_daylight_saving :
  (JSDate.getMonth newYork2024 1710045000000,
   JSDate.getDate newYork2024 1710045000000) = (2, 9)
  /\ (JSDate.getMonth newYork2024 1710131400000,
      JSDate.getDate newYork2024 1710131400000) = (2, 11)
  /\ snd (habitCheckIn newYork2024
            (habitStore (sampleHabit 3 5 (Some 1710045000000)))
            "h1" 1710131400000)
     = {| status := 200;
          body := BodyHabit (Some (sampleHabit 1 5 (Some 1710131400000))) |}
  /\ snd (habitCheckIn newYork2024
            (habitStore (sampleHabit 3 5 (Some 1730607300000)))
            "h1" 1730781900000)
     = {| status := 200;
          body := BodyHabit (Some (sampleHabit 4 5 (Some 1730781900000))) |}
  /\ snd (habitCheckIn newYork2024
            (habitStore (sampleHabit 3 5 (Some 1730608200000)))
            "h1" 1730694600000)
     = AlreadyCheckedInToday.
Proof. repeat split; vm_compute; reflexivity. Qed.

(** * Further properties of the handlers *)

(** ** Habits *)

Section HabitRuns.

Variable LocalTZA : Z -> bool -> Z.

Lemma habitCheckIn_lookup st id now habit :
  getHabit st id = Some habit ->
  forall st' h',
    habitCheckIn LocalTZA st id now
    = (st', {| status := 200; body := BodyHabit (Some h') |}) ->
    st' = setHabits st (<[id := h']> (habits st))
    /\ Habit.lastCompletedAt h' = Some now
    /\ Habit.id h' = Habit.id habit.
Proof.
  intros Hget st' h' Hrun.
  destruct (habitCheckIn_outcome LocalTZA st id now habit Hget)
    as [[Heq _] | (h'' & Heq & Hh'' & _)];
    rewrite Heq in Hrun; [discriminate|].
  injection Hrun as <- <-. rewrite Hh''. cbn. auto.
Qed.

Lemma habitCheckIn_success_found st id now st' h' :
  habitCheckIn LocalTZA st id now
  = (st', {| status := 200; body := BodyHabit (Some h') |}) ->
  exists habit, getHabit st id = Some habit.
Proof.
  intros Hrun. destruct (getHabit st id) as [habit|] eqn:Hget; [eauto|].
  rewrite habitCheckIn_missing in Hrun by assumption. discriminate.
Qed.

(** One more day on a habit last completed the day before. *)
Lemma habitCheckIn_next_day st id now habit lc :
  getHabit st id = Some habit ->
  Habit.lastCompletedAt habit = Some lc ->
  daysBetween LocalTZA lc now = 1 ->
  yesterdayOnPreviousDay LocalTZA now ->
  exists h',
    getHabit (fst (habitCheckIn LocalTZA st id now)) id = Some h'
    /\ Habit.currentStreak h' = Habit.currentStreak habit + 1
    /\ Habit.bestStreak h'
       = Z.max (Habit.bestStreak habit) (Habit.currentStreak habit + 1)
    /\ Habit.lastCompletedAt h' = Some now.
Proof.
  intros Hget Hlc Hday Hy.
  destruct (habitCheckIn_outcome LocalTZA st id now habit Hget)
    as [[_ (lc' & Hlc' & H0)] | (h' & Heq & Hh' & Hcs & _)].
  - rewrite Hlc in Hlc'. injection Hlc' as <-. lia.
  - rewrite Hlc in Hcs. unfold yesterdayOnPreviousDay in Hy.
    unfold daysBetween in Hday.
    destruct (Z.eqb_spec (JSDate.localDay LocalTZA lc)
                         (yesterdayDay LocalTZA now)); [|lia].
    exists h'. rewrite Heq. cbn [fst].
    rewrite getHabit_setHabits_insert. case_decide; [|congruence].
    split; [reflexivity|]. split; [exact Hcs|].
    rewrite Hh'. cbn. rewrite Hcs. auto.
Qed.

Lemma last_cons_shift (l : list Z) : forall a d, List.last (a :: l) d = List.last l a.
Proof.
  induction l as [|b l IH]; intros a d; [reflexivity|].
  change (List.last (a :: b :: l) d) with (List.last (b :: l) d).
  now rewrite !IH.
Qed.

Lemma serve_checkIns_consecutive times : forall st id habit t0,
  getHabit st id = Some habit ->
  Habit.lastCompletedAt habit = Some t0 ->
  Habit.currentStreak habit <= Habit.bestStreak habit ->
  consecutiveDays LocalTZA t0 times ->
  Forall (yesterdayOnPreviousDay LocalTZA) times ->
  exists h',
    getHabit (serve LocalTZA st (checkIns id times)) id = Some h'
    /\ Habit.currentStreak h'
       = Habit.currentStreak habit + Z.of_nat (length times)
    /\ Habit.bestStreak h'
       = Z.max (Habit.bestStreak habit) (Habit.currentStreak h')
    /\ Habit.lastCompletedAt h' = Some (List.last times t0).
Proof.
  induction times as [|t times IH];
    intros st id habit t0 Hget Hlc Hle Hdays Hzone.
  - exists habit. cbn. repeat split; try assumption; lia.
  - destruct Hdays as [Hday Hrest].
    inversion Hzone as [|? ? Hy Hzone']; subst.
    destruct (habitCheckIn_next_day st id t habit t0 Hget Hlc Hday Hy)
      as (h1 & Hget1 & Hcs1 & Hbs1 & Hlc1).
    destruct (IH (fst (habitCheckIn LocalTZA st id t)) id h1 t Hget1 Hlc1)
      as (h' & Hget' & Hcs' & Hbs' & Hlc');
      [lia | exact Hrest | exact Hzone' |].
    exists h'. cbn [checkIns map serve handle].
    split; [exact Hget'|].
    split; [rewrite Hcs', Hcs1; cbn [length]; lia|].
    split; [rewrite Hbs', Hbs1; rewrite Hcs', Hcs1; lia|].
    rewrite Hlc'. now rewrite last_cons_shift.
Qed.

End HabitRuns.

(** X1.  A new habit checked in on [n] consecutive calendar days, whatever
    the hours, has current streak [n] and best streak [n], and its last
    completion is the last check-in; this on a host that puts the
    [yesterday] of every check-in after the first on the day before it. *)
Theorem consecutive_checkIns_count LocalTZA st data id created t1 rest :
  consecutiveDays LocalTZA t1 rest ->
  Forall (yesterdayOnPreviousDay LocalTZA) rest ->
  exists h,
    getHabit
      (serve LocalTZA st
         (ReqCreate (Some data) id created :: checkIns id (t1 :: rest))) id
    = Some h
    /\ Habit.currentStreak h = Z.of_nat (length (t1 :: rest))
    /\ Habit.bestStreak h = Z.of_nat (length (t1 :: rest))
    /\ Habit.lastCompletedAt h = Some (List.last rest t1).
Proof.
  intros Hdays Hzone. cbn [checkIns map serve handle].
  set (st0 := fst (habitCreate st (Some data) id created)).
  assert (exists h0, getHabit st0 id = Some h0
                     /\ Habit.lastCompletedAt h0 = None
                     /\ Habit.bestStreak h0 = 0) as (h0 & Hget0 & Hlc0 & Hbs0).
  { eexists. subst st0. cbn. rewrite getHabit_setHabits_insert.
    case_decide; [|congruence]. repeat split. }
  destruct (habitCheckIn_outcome LocalTZA st0 id t1 h0 Hget0)
    as [[_ (lc & Hlc & _)] | (h1 & Heq & Hh1 & Hcs1 & _)]; [congruence|].
  rewrite Hlc0 in Hcs1.
  assert (getHabit (fst (habitCheckIn LocalTZA st0 id t1)) id = Some h1)
    as Hget1.
  { rewrite Heq. cbn [fst]. rewrite getHabit_setHabits_insert.
    now case_decide. }
  assert (Habit.lastCompletedAt h1 = Some t1) as Hlc1 by now rewrite Hh1.
  assert (Habit.bestStreak h1 = 1) as Hbs1.
  { rewrite Hh1. cbn. rewrite Hbs0, Hcs1. reflexivity. }
  destruct (serve_checkIns_consecutive LocalTZA rest
              (fst (habitCheckIn LocalTZA st0 id t1)) id h1 t1 Hget1 Hlc1)
    as (h & Hget & Hcs & Hbs & Hlc); [lia | exact Hdays | exact Hzone |].
  exists h. fold (checkIns id rest). split; [exact Hget|].
  cbn [length]. repeat split; [lia | lia | exact Hlc].
Qed.

Lemma consecutive_checkIns_count_witness :
  exists h,
    getHabit
      (serve newYork2024 newMemStorage
         (ReqCreate (Some {| InsertHabit.name := "Read";
                             InsertHabit.description := None;
                             InsertHabit.frequency := Some daily |}) "h1" 0
          :: checkIns "h1" [1710045000000; 1710127800000; 1710131400000]))
      "h1" = Some h
    /\ Habit.currentStreak h = 3
    /\ Habit.bestStreak h = 3
    /\ Habit.lastCompletedAt h = Some 1710131400000.
Proof.
  apply (consecutive_checkIns_count newYork2024 newMemStorage
           {| InsertHabit.name := "Read";
              InsertHabit.description := None;
              InsertHabit.frequency := Some daily |} "h1" 0
           1710045000000 [1710127800000; 1710131400000]).
  - vm_compute. repeat split.
  - repeat constructor; vm_compute; reflexivity.
Defined.

(** X2.  After a successful check-in at [now], a further check-in at any
    time of the same calendar day is answered with [AlreadyCheckedInToday]
    and changes nothing. *)
Theorem checkIn_twice_same_day LocalTZA st id now now' st1 h1 :
  habitCheckIn LocalTZA st id now
  = (st1, {| status := 200; body := BodyHabit (Some h1) |}) ->
  daysBetween LocalTZA now now' = 0 ->
  habitCheckIn LocalTZA st1 id now' = (st1, AlreadyCheckedInToday).
Proof.
  intros Hrun Hday.
  destruct (habitCheckIn_success_found LocalTZA st id now st1 h1 Hrun)
    as [habit Hget].
  destruct (habitCheckIn_lookup LocalTZA st id now habit Hget st1 h1 Hrun)
    as (-> & Hlc & _).
  assert (getHabit (setHabits st (<[id := h1]> (habits st))) id = Some h1)
    as Hget1 by (rewrite getHabit_setHabits_insert; now case_decide).
  destruct (habitCheckIn_outcome LocalTZA _ id now' h1 Hget1)
    as [[Heq _] | (h2 & _ & _ & _ & Hne)]; [exact Heq|].
  now destruct (Hne now Hlc).
Qed.

Lemma checkIn_twice_same_day_witness :
  habitCheckIn utcZone (habitStore (sampleHabit 4 5 (Some (atHour 19783 1))))
               "h1" (atHour 19783 23)
  = (habitStore (sampleHabit 4 5 (Some (atHour 19783 1))),
     AlreadyCheckedInToday).
Proof.
  apply (checkIn_twice_same_day utcZone
           (habitStore (sampleHabit 3 5 (Some (atHour 19782 23)))) "h1"
           (atHour 19783 1) (atHour 19783 23)
           (habitStore (sampleHabit 4 5 (Some (atHour 19783 1))))
           (sampleHabit 4 5 (Some (atHour 19783 1))));
    vm_compute; reflexivity.
Defined.

Section HabitInvariants.

Variable LocalTZA : Z -> bool -> Z.

Lemma handle_habitWellFormed st r :
  (forall key h, getHabit st key = Some h -> habitWellFormed key h) ->
  forall key h,
    getHabit (fst (handle LocalTZA st r)) key = Some h -> habitWellFormed key h.
Proof.
  intros Hinv key h. destruct r as [[data|] id now | id now | id]; cbn [handle].
  - cbn. rewrite getHabit_setHabits_insert. case_decide; [|apply Hinv].
    intros [= <-]. subst. repeat split; cbn; lia.
  - apply Hinv.
  - destruct (getHabit st id) as [habit|] eqn:Hget.
    + destruct (habitCheckIn_outcome LocalTZA st id now habit Hget)
        as [[-> _] | (h' & -> & Hh' & Hcs & _)]; [apply Hinv|].
      cbn [fst]. rewrite getHabit_setHabits_insert.
      case_decide; [|apply Hinv]. intros [= <-]. subst key.
      destruct (Hinv id habit Hget) as (Hid & H0 & _).
      assert (1 <= Habit.currentStreak h') as H1.
      { rewrite Hcs. destruct (Habit.lastCompletedAt habit); [|lia].
        destruct (_ =? _); lia. }
      unfold habitWellFormed. rewrite Hh'. cbn. repeat split; [exact Hid|lia|lia].
    + rewrite habitCheckIn_missing by assumption. apply Hinv.
  - unfold habitDelete, deleteHabit.
    assert (getHabit (setHabits st (delete id (habits st))) key = Some h ->
            habitWellFormed key h) as Hdel.
    { unfold getHabit, setHabits. cbn. rewrite lookup_delete_Some.
      intros [_ H]. now apply Hinv. }
    destruct (negb _); exact Hdel.
Qed.

Lemma serve_habitWellFormed rs : forall st,
  (forall key h, getHabit st key = Some h -> habitWellFormed key h) ->
  forall key h,
    getHabit (serve LocalTZA st rs) key = Some h -> habitWellFormed key h.
Proof.
  induction rs as [|r rs IH]; intros st Hinv; [exact Hinv|].
  cbn [serve]. apply IH. now apply handle_habitWellFormed.
Qed.

End HabitInvariants.

(** X3.  In every store reached from the empty one by requests to the
    habits API, a habit's [id] is the key it is stored under, its current
    streak is not negative, a habit never checked in has both streaks 0,
    and a habit with a last completion has a current streak of at least 1. *)
Theorem reachable_habits_wellFormed LocalTZA rs key h :
  getHabit (serve LocalTZA newMemStorage rs) key = Some h ->
  Habit.id h = key
  /\ 0 <= Habit.currentStreak h
  /\ (Habit.lastCompletedAt h = None ->
      Habit.currentStreak h = 0 /\ Habit.bestStreak h = 0)
  /\ (forall lc, Habit.lastCompletedAt h = Some lc -> 1 <= Habit.currentStreak h).
Proof.
  intros Hget.
  assert (habitWellFormed key h) as (Hid & H0 & Hlc).
  { apply (serve_habitWellFormed LocalTZA rs newMemStorage); [|exact Hget].
    intros k h0. unfold getHabit. cbn. now rewrite lookup_empty. }
  repeat split; try assumption.
  - destruct (Habit.lastCompletedAt h); [discriminate | tauto].
  - destruct (Habit.lastCompletedAt h); [discriminate | tauto].
  - intros lc Hsome. now rewrite Hsome in Hlc.
Qed.

Lemma reachable_habits_wellFormed_witness :
  Habit.id (sampleHabit 1 1 (Some (atHour 19783 1))) = "h1"
  /\ 0 <= Habit.currentStreak (sampleHabit 1 1 (Some (atHour 19783 1)))
  /\ (Habit.lastCompletedAt (sampleHabit 1 1 (Some (atHour 19783 1))) = None ->
      Habit.currentStreak (sampleHabit 1 1 (Some (atHour 19783 1))) = 0
      /\ Habit.bestStreak (sampleHabit 1 1 (Some (atHour 19783 1))) = 0)
  /\ (forall lc,
        Habit.lastCompletedAt (sampleHabit 1 1 (Some (atHour 19783 1)))
        = Some lc ->
        1 <= Habit.currentStreak (sampleHabit 1 1 (Some (atHour 19783 1)))).
Proof.
  apply (reachable_habits_wellFormed utcZone
           [ReqCreate (Some {| InsertHabit.name := "Read";
                               InsertHabit.description := None;
                               InsertHabit.frequency := Some daily |}) "h1" 0;
            ReqCheckIn "h1" (atHour 19783 1)] "h1").
  vm_compute; reflexivity.
Defined.

(** X4.  A check-in removes no habit and lowers no best streak: every
    habit of the store is still there afterwards, with the same [id],
    [name] and [createdAt] and a best streak at least as large; a habit
    other than the one checked in is unchanged. *)
Theorem checkIn_keeps_habits LocalTZA st id now key h :
  getHabit st key = Some h ->
  exists h',
    getHabit (fst (habitCheckIn LocalTZA st id now)) key = Some h'
    /\ Habit.bestStreak h <= Habit.bestStreak h'
    /\ Habit.id h' = Habit.id h
    /\ Habit.name h' = Habit.name h
    /\ Habit.createdAt h' = Habit.createdAt h
    /\ (key <> id -> h' = h).
Proof.
  intros Hkey.
  assert (exists h', getHabit st key = Some h'
                     /\ Habit.bestStreak h <= Habit.bestStreak h'
                     /\ Habit.id h' = Habit.id h
                     /\ Habit.name h' = Habit.name h
                     /\ Habit.createdAt h' = Habit.createdAt h
                     /\ (key <> id -> h' = h)) as Hsame
    by (exists h; repeat split; [assumption | lia]).
  destruct (getHabit st id) as [habit|] eqn:Hget.
  - destruct (habitCheckIn_outcome LocalTZA st id now habit Hget)
      as [[-> _] | (h' & -> & Hh' & _)]; [exact Hsame|].
    cbn [fst]. rewrite getHabit_setHabits_insert.
    case_decide as Hid; [|exact Hsame].
    subst key. assert (habit = h) as -> by congruence.
    exists h'. split; [reflexivity|]. rewrite Hh'. cbn.
    repeat split; [lia | congruence].
  - rewrite habitCheckIn_missing by assumption. exact Hsame.
Qed.

Lemma checkIn_keeps_habits_witness :
  exists h',
    getHabit
      (fst (habitCheckIn utcZone (habitStore (sampleHabit 4 4 (Some (atHour 19780 9))))
                         "h1" (atHour 19783 9))) "h1" = Some h'
    /\ Habit.bestStreak (sampleHabit 4 4 (Some (atHour 19780 9)))
       <= Habit.bestStreak h'
    /\ Habit.id h' = Habit.id (sampleHabit 4 4 (Some (atHour 19780 9)))
    /\ Habit.name h' = Habit.name (sampleHabit 4 4 (Some (atHour 19780 9)))
    /\ Habit.createdAt h'
       = Habit.createdAt (sampleHabit 4 4 (Some (atHour 19780 9)))
    /\ ("h1" <> "h1" -> h' = sampleHabit 4 4 (Some (atHour 19780 9))).
Proof.
  apply (checkIn_keeps_habits utcZone
           (habitStore (sampleHabit 4 4 (Some (atHour 19780 9)))) "h1"
           (atHour 19783 9) "h1" (sampleHabit 4 4 (Some (atHour 19780 9)))).
  vm_compute; reflexivity.
Defined.

(** X5.  The handler does not require [now] to be later than the last
    completion: a check-in whose [now] falls on an earlier calendar day is
    accepted, sets the current streak to 1 and moves [lastCompletedAt] back
    to [now]; this on a host that puts [yesterday] no later than the day of
    [now]. *)
Theorem checkIn_on_earlier_day_resets LocalTZA st id now habit lc :
  getHabit st id = Some habit ->
  Habit.lastCompletedAt habit = Some lc ->
  daysBetween LocalTZA lc now < 0 ->
  yesterdayDay LocalTZA now <= JSDate.localDay LocalTZA now ->
  exists h',
    habitCheckIn LocalTZA st id now
    = (setHabits st (<[id := h']> (habits st)),
       {| status := 200; body := BodyHabit (Some h') |})
    /\ Habit.currentStreak h' = 1
    /\ Habit.bestStreak h' = Z.max (Habit.bestStreak habit) 1
    /\ Habit.lastCompletedAt h' = Some now.
Proof.
  intros Hget Hlc Hday Hy.
  destruct (habitCheckIn_outcome LocalTZA st id now habit Hget)
    as [[_ (lc' & Hlc' & H0)] | (h' & Heq & Hh' & Hcs & _)].
  - rewrite Hlc in Hlc'. injection Hlc' as <-. lia.
  - exists h'. split; [exact Heq|].
    assert (Habit.currentStreak h' = 1) as H1.
    { rewrite Hcs, Hlc. unfold daysBetween in Hday.
      destruct (Z.eqb_spec (JSDate.localDay LocalTZA lc)
                           (yesterdayDay LocalTZA now)); [lia|reflexivity]. }
    split; [exact H1|]. rewrite Hh'. cbn. rewrite H1. auto.
Qed.

Lemma checkIn_on_earlier_day_resets_witness :
  exists h',
    habitCheckIn newYork2024
                 (habitStore (sampleHabit 4 5 (Some 1730781900000)))
                 "h1" 1730607300000
    = (setHabits (habitStore (sampleHabit 4 5 (Some 1730781900000)))
         (<["h1" := h']>
            (habits (habitStore (sampleHabit 4 5 (Some 1730781900000))))),
       {| status := 200; body := BodyHabit (Some h') |})
    /\ Habit.currentStreak h' = 1
    /\ Habit.bestStreak h' = Z.max 5 1
    /\ Habit.lastCompletedAt h' = Some 1730607300000.
Proof.
  apply (checkIn_on_earlier_day_resets newYork2024
           (habitStore (sampleHabit 4 5 (Some 1730781900000))) "h1"
           1730607300000 (sampleHabit 4 5 (Some 1730781900000))
           1730781900000).
  - vm_compute; reflexivity.
  - reflexivity.
  - vm_compute; reflexivity.
  - vm_compute; discriminate.
Defined.

Lemma setHabits_same st : setHabits st (habits st) = st.
Proof. now destruct st. Qed.

(** X6.  Deleting a habit that is not stored answers 404 and leaves the
    store as it is; deleting a stored habit answers 204 and removes it, after
    which a check-in on its id answers 404.  No other habit and no session
    is touched. *)
Theorem habitDelete_behaviour LocalTZA st id now :
  (getHabit st id = None ->
   habitDelete st id
   = (st, {| status := 404; body := BodyError "Habit not found" |}))
  /\ (forall h, getHabit st id = Some h ->
        snd (habitDelete st id) = {| status := 204; body := BodyDeleted |})
  /\ getHabit (fst (habitDelete st id)) id = None
  /\ habitCheckIn LocalTZA (fst (habitDelete st id)) id now
     = (fst (habitDelete st id),
        {| status := 404; body := BodyError "Habit not found" |})
  /\ (forall id', id' <> id ->
        getHabit (fst (habitDelete st id)) id' = getHabit st id')
  /\ focusSessions (fst (habitDelete st id)) = focusSessions st.
Proof.
  assert (fst (habitDelete st id) = setHabits st (delete id (habits st))) as Hfst.
  { unfold habitDelete, deleteHabit. now destruct (negb _). }
  assert (getHabit (fst (habitDelete st id)) id = None) as Hgone.
  { rewrite Hfst. unfold getHabit, setHabits. cbn. apply lookup_delete_eq. }
  split; [|split; [|split; [|split; [|split]]]].
  - intros Hnone. unfold habitDelete, deleteHabit. unfold getHabit in Hnone.
    rewrite delete_id by assumption. rewrite setHabits_same, Hnone.
    rewrite bool_decide_eq_false_2 by (intros [? ?]; discriminate).
    reflexivity.
  - intros h Hsome. unfold habitDelete, deleteHabit. unfold getHabit in Hsome.
    rewrite Hsome. rewrite bool_decide_eq_true_2 by eauto. reflexivity.
  - exact Hgone.
  - now apply habitCheckIn_missing.
  - intros id' Hne. rewrite Hfst. unfold getHabit, setHabits. cbn.
    now apply lookup_delete_ne.
  - now rewrite Hfst.
Qed.

Lemma habitDelete_behaviour_witness :
  snd (habitDelete (habitStore (sampleHabit 4 5 (Some (atHour 19783 9)))) "h1")
  = {| status := 204; body := BodyDeleted |}
  /\ habitDelete newMemStorage "h1"
     = (newMemStorage,
        {| status := 404; body := BodyError "Habit not found" |}).
Proof.
  split.
  - apply (proj1 (proj2 (habitDelete_behaviour utcZone
                           (habitStore (sampleHabit 4 5 (Some (atHour 19783 9))))
                           "h1" 0))
             (sampleHabit 4 5 (Some (atHour 19783 9)))).
    vm_compute; reflexivity.
  - apply (proj1 (habitDelete_behaviour utcZone newMemStorage "h1" 0)).
    vm_compute; reflexivity.
Defined.

(** ** Focus sessions *)

(** X7.  A session started at [t0] and ended at [t1] under the id it was
    given is returned closed, with [startTime = t0], [endTime = t1] and
    [floor ((t1 - t0) / 60000)] minutes, whatever the store held before. *)
Theorem start_then_end st reqBody t0 id createdNow t1 :
  id <> "" ->
  status (snd (focusSessionStart st reqBody t0 id createdNow)) = 201 ->
  exists s,
    snd (focusSessionEnd (fst (focusSessionStart st reqBody t0 id createdNow))
                         (JsString id) t1)
    = {| status := 200; body := BodySession (Some s) |}
    /\ getFocusSession
         (fst (focusSessionEnd
                 (fst (focusSessionStart st reqBody t0 id createdNow))
                 (JsString id) t1)) id = Some s
    /\ FocusSession.id s = id
    /\ FocusSession.startTime s = t0
    /\ FocusSession.endTime s = Some t1
    /\ FocusSession.durationMinutes s = Some ((t1 - t0) / 60000)
    /\ FocusSession.createdAt s = createdNow.
Proof.
  intros Hne H201.
  assert (exists s0,
            getFocusSession (fst (focusSessionStart st reqBody t0 id createdNow))
                            id = Some s0
            /\ FocusSession.id s0 = id
            /\ FocusSession.startTime s0 = t0
            /\ FocusSession.createdAt s0 = createdNow)
    as (s0 & Hget0 & Hid0 & Hst0 & Hcr0).
  { revert H201. unfold focusSessionStart, insertFocusSessionSchema_parse.
    destruct (parseSessionType _); [|discriminate].
    destruct (parseTaskId _); [|discriminate].
    intros _. cbn. eexists.
    rewrite getFocusSession_setFocusSessions_insert.
    case_decide; [|congruence]. repeat split. }
  pose proof (focusSessionEnd_found _ id t1 s0 Hne Hget0) as Hend.
  cbv zeta in Hend. rewrite Hend. cbn [fst snd]. eexists.
  split; [reflexivity|].
  split; [rewrite getFocusSession_setFocusSessions_insert; now case_decide|].
  cbn. rewrite Hst0. auto.
Qed.

Lemma start_then_end_witness :
  exists s,
    snd (focusSessionEnd
           (fst (focusSessionStart newMemStorage
                   {| StartBody.sessionType := JsString "break";
                      StartBody.taskId := JsUndefined |}
                   36000000 "s1" 36000001))
           (JsString "s1") 36330000)
    = {| status := 200; body := BodySession (Some s) |}
    /\ getFocusSession
         (fst (focusSessionEnd
                 (fst (focusSessionStart newMemStorage
                         {| StartBody.sessionType := JsString "break";
                            StartBody.taskId := JsUndefined |}
                         36000000 "s1" 36000001))
                 (JsString "s1") 36330000)) "s1" = Some s
    /\ FocusSession.id s = "s1"
    /\ FocusSession.startTime s = 36000000
    /\ FocusSession.endTime s = Some 36330000
    /\ FocusSession.durationMinutes s = Some ((36330000 - 36000000) / 60000)
    /\ FocusSession.createdAt s = 36000001.
Proof.
  apply (start_then_end newMemStorage
           {| StartBody.sessionType := JsString "break";
              StartBody.taskId := JsUndefined |}
           36000000 "s1" 36000001 36330000).
  - discriminate.
  - vm_compute; reflexivity.
Defined.

(** X8.  The start handler accepts a body exactly when [sessionType] is
    falsy, ["focus"] or ["break"] and [taskId] is falsy or a string.  An
    accepted request stores type [break] when ["break"] was asked for and
    [focus] otherwise, the given task id when it is a non-empty string and
    none when it is falsy (the empty string included); any other body is
    answered 400 and creates nothing. *)
Theorem start_validation st reqBody now id createdNow :
  let ty := StartBody.sessionType reqBody in
  let task := StartBody.taskId reqBody in
  let accepted :=
    (truthy ty = false \/ ty = JsString "focus" \/ ty = JsString "break")
    /\ (truthy task = false \/ exists k, task = JsString k) in
  (accepted ->
   exists s,
     focusSessionStart st reqBody now id createdNow
     = (setFocusSessions st (<[id := s]> (focusSessions st)),
        {| status := 201; body := BodySession (Some s) |})
     /\ (ty = JsString "break" -> FocusSession.sessionType s = Some break)
     /\ (ty <> JsString "break" -> FocusSession.sessionType s = Some focus)
     /\ (forall k, task = JsString k -> k <> "" ->
                   FocusSession.taskId s = Some k)
     /\ (truthy task = false -> FocusSession.taskId s = None))
  /\ (~ accepted ->
      focusSessionStart st reqBody now id createdNow
      = (st, {| status := 400; body := BodyZodError |})).
Proof.
  destruct reqBody as [ty task]. cbn [StartBody.sessionType StartBody.taskId].
  cbv zeta. unfold focusSessionStart, insertFocusSessionSchema_parse.
  cbn [StartBody.sessionType StartBody.taskId].
  split.
  - intros [Hty Htask].
    assert (exists pty, parseSessionType (jsOr ty (JsString "focus")) = Some pty
                        /\ (ty = JsString "break" -> pty = break)
                        /\ (ty <> JsString "break" -> pty = focus))
      as (pty & -> & Hb & Hf).
    { unfold jsOr. destruct Hty as [Hfalsy | [-> | ->]].
      - rewrite Hfalsy. exists focus. cbn. repeat split.
        intros ->. discriminate.
      - exists focus. cbn. repeat split. discriminate.
      - exists break. cbn. repeat split. congruence. }
    assert (exists o, parseTaskId (jsOr task JsNull) = Some o
                      /\ (forall k, task = JsString k -> k <> "" ->
                                    strOrNull o = Some k)
                      /\ (truthy task = false -> strOrNull o = None))
      as (o & -> & Hk & Hn).
    { unfold jsOr. destruct (truthy task) eqn:Ht.
      - destruct Htask as [? | [k ->]]; [discriminate|].
        exists (Some k). split; [reflexivity|]. split; [|discriminate].
        intros k' [= <-] Hne. cbn.
        destruct (String.eqb_spec k ""); [contradiction | reflexivity].
      - exists None. split; [reflexivity|]. split; [|reflexivity].
        intros k -> Hne. cbn in Ht.
        destruct (String.eqb_spec k ""); [contradiction | discriminate]. }
    cbn. eexists. split; [reflexivity|]. cbn.
    repeat split; intros; f_equal; auto.
  - intros Hrej.
    destruct (parseSessionType (jsOr ty (JsString "focus"))) as [pty|] eqn:Hpty;
      [|reflexivity].
    destruct (parseTaskId (jsOr task JsNull)) as [o|] eqn:Hpt; [|reflexivity].
    exfalso. apply Hrej. split.
    + unfold jsOr in Hpty. destruct (truthy ty) eqn:Ht; [|now left].
      right. destruct ty; try discriminate. cbn in Hpty.
      destruct (String.eqb_spec s "focus"); [left; congruence|].
      destruct (String.eqb_spec s "break"); [right; congruence|discriminate].
    + unfold jsOr in Hpt. destruct (truthy task) eqn:Ht; [|now left].
      right. destruct task; try discriminate. eauto.
Qed.

Lemma start_validation_witness :
  (exists s,
     focusSessionStart newMemStorage
       {| StartBody.sessionType := JsString ""; StartBody.taskId := JsString "" |}
       36000000 "s1" 36000001
     = (setFocusSessions newMemStorage
          (<["s1" := s]> (focusSessions newMemStorage)),
        {| status := 201; body := BodySession (Some s) |})
     /\ (JsString "" = JsString "break" ->
         FocusSession.sessionType s = Some break)
     /\ (JsString "" <> JsString "break" ->
         FocusSession.sessionType s = Some focus)
     /\ (forall k, JsString "" = JsString k -> k <> "" ->
                   FocusSession.taskId s = Some k)
     /\ (truthy (JsString "") = false -> FocusSession.taskId s = None))
  /\ focusSessionStart newMemStorage
       {| StartBody.sessionType := JsString "nap"; StartBody.taskId := JsNull |}
       36000000 "s1" 36000001
     = (newMemStorage, {| status := 400; body := BodyZodError |}).
Proof.
  split.
  - apply (proj1 (start_validation newMemStorage
                    {| StartBody.sessionType := JsString "";
                       StartBody.taskId := JsString "" |}
                    36000000 "s1" 36000001)).
    split; left; reflexivity.
  - apply (proj2 (start_validation newMemStorage
                    {| StartBody.sessionType := JsString "nap";
                       StartBody.taskId := JsNull |}
                    36000000 "s1" 36000001)).
    intros [[H | [H | H]] _]; discriminate H.
Defined.

(** X9.  Ending a session changes its [endTime] and [durationMinutes] and
    nothing else: its [id], [startTime], [sessionType], [taskId] and
    [createdAt] stay, every other session is unchanged and so are the
    habits. *)
Theorem end_changes_two_fields st key now session st' s' :
  getFocusSession st key = Some session ->
  focusSessionEnd st (JsString key) now
  = (st', {| status := 200; body := BodySession (Some s') |}) ->
  getFocusSession st' key = Some s'
  /\ FocusSession.id s' = FocusSession.id session
  /\ FocusSession.startTime s' = FocusSession.startTime session
  /\ FocusSession.sessionType s' = FocusSession.sessionType session
  /\ FocusSession.taskId s' = FocusSession.taskId session
  /\ FocusSession.createdAt s' = FocusSession.createdAt session
  /\ (forall key', key' <> key ->
        getFocusSession st' key' = getFocusSession st key')
  /\ habits st' = habits st.
Proof.
  intros Hget Hrun.
  assert (key <> "") as Hne.
  { intros ->. cbn in Hrun. discriminate. }
  pose proof (focusSessionEnd_found st key now session Hne Hget) as Hend.
  cbv zeta in Hend. rewrite Hend in Hrun. injection Hrun as <- <-.
  split; [rewrite getFocusSession_setFocusSessions_insert; now case_decide|].
  cbn. repeat split.
  intros key' Hne'. rewrite getFocusSession_setFocusSessions_insert.
  case_decide; congruence.
Qed.

Lemma end_changes_two_fields_witness :
  let session := sampleSession 36000000 None None in
  let s' := sampleSession 36000000 (Some 37530000) (Some 25) in
  getFocusSession (sessionStore s') "s1" = Some s'
  /\ FocusSession.id s' = FocusSession.id session
  /\ FocusSession.startTime s' = FocusSession.startTime session
  /\ FocusSession.sessionType s' = FocusSession.sessionType session
  /\ FocusSession.taskId s' = FocusSession.taskId session
  /\ FocusSession.createdAt s' = FocusSession.createdAt session
  /\ (forall key', key' <> "s1" ->
        getFocusSession (sessionStore s') key'
        = getFocusSession (sessionStore session) key')
  /\ habits (sessionStore s') = habits (sessionStore session).
Proof.
  intros session s'.
  apply (end_changes_two_fields (sessionStore session) "s1" 37530000 session
           (sessionStore s') s');
    vm_compute; reflexivity.
Defined.

(** X10.  The duration the end handler stores is negative exactly when
    the session is ended before its start, and ending later never gives
    fewer minutes: for [now1 <= now2] the duration stored at [now1] is at
    most that stored at [now2]. *)
Theorem end_duration_sign_and_order st key session now1 now2 :
  key <> "" ->
  getFocusSession st key = Some session ->
  now1 <= now2 ->
  exists s1 s2 d1 d2,
    focusSessionEnd st (JsString key) now1
    = (setFocusSessions st (<[key := s1]> (focusSessions st)),
       {| status := 200; body := BodySession (Some s1) |})
    /\ focusSessionEnd st (JsString key) now2
       = (setFocusSessions st (<[key := s2]> (focusSessions st)),
          {| status := 200; body := BodySession (Some s2) |})
    /\ getFocusSession (fst (focusSessionEnd st (JsString key) now1)) key
       = Some s1
    /\ getFocusSession (fst (focusSessionEnd st (JsString key) now2)) key
       = Some s2
    /\ FocusSession.durationMinutes s1 = Some d1
    /\ FocusSession.durationMinutes s2 = Some d2
    /\ d1 <= d2
    /\ (d1 < 0 <-> now1 < FocusSession.startTime session)
    /\ (d2 < 0 <-> now2 < FocusSession.startTime session).
Proof.
  intros Hne Hget Hle.
  pose proof (focusSessionEnd_found st key now1 session Hne Hget) as H1.
  pose proof (focusSessionEnd_found st key now2 session Hne Hget) as H2.
  cbv zeta in H1, H2. rewrite H1, H2. cbn [fst].
  do 2 eexists.
  exists ((now1 - FocusSession.startTime session) / 60000),
         ((now2 - FocusSession.startTime session) / 60000).
  split; [reflexivity|]. split; [reflexivity|].
  split; [rewrite getFocusSession_setFocusSessions_insert; now case_decide|].
  split; [rewrite getFocusSession_setFocusSessions_insert; now case_decide|].
  cbn. split; [reflexivity|]. split; [reflexivity|].
  repeat split; intros; Z.div_mod_to_equations; lia.
Qed.

Lemma end_duration_sign_and_order_witness :
  exists s1 s2 d1 d2,
    focusSessionEnd (sessionStore (sampleSession 60000 None None))
                    (JsString "s1") 30000
    = (setFocusSessions (sessionStore (sampleSession 60000 None None))
         (<["s1" := s1]>
            (focusSessions (sessionStore (sampleSession 60000 None None)))),
       {| status := 200; body := BodySession (Some s1) |})
    /\ focusSessionEnd (sessionStore (sampleSession 60000 None None))
                       (JsString "s1") 200000
       = (setFocusSessions (sessionStore (sampleSession 60000 None None))
            (<["s1" := s2]>
               (focusSessions (sessionStore (sampleSession 60000 None None)))),
          {| status := 200; body := BodySession (Some s2) |})
    /\ getFocusSession
         (fst (focusSessionEnd (sessionStore (sampleSession 60000 None None))
                               (JsString "s1") 30000)) "s1" = Some s1
    /\ getFocusSession
         (fst (focusSessionEnd (sessionStore (sampleSession 60000 None None))
                               (JsString "s1") 200000)) "s1" = Some s2
    /\ FocusSession.durationMinutes s1 = Some d1
    /\ FocusSession.durationMinutes s2 = Some d2
    /\ d1 <= d2
    /\ (d1 < 0 <-> 30000 < 60000)
    /\ (d2 < 0 <-> 200000 < 60000).
Proof.
  apply (end_duration_sign_and_order
           (sessionStore (sampleSession 60000 None None)) "s1"
           (sampleSession 60000 None None) 30000 200000).
  - discriminate.
  - vm_compute; reflexivity.
  - vm_compute; discriminate.
Defined.

(** ** Tasks *)

Section TaskFacts.

Lemma taskPatch_found tasks id data task :
  getTask tasks id = Some task ->
  taskPatch tasks id (Some data)
  = (<[id := spreadTask task (taskUpdates data)]> tasks,
     Json 200 (spreadTask task (taskUpdates data))).
Proof.
  intros Hget. unfold taskPatch, updateTask. unfold getTask in Hget.
  now rewrite Hget.
Qed.

Lemma taskPatch_missing tasks id data :
  getTask tasks id = None ->
  taskPatch tasks id (Some data) = (tasks, Failure 404 "Task not found").
Proof.
  intros Hget. unfold taskPatch, updateTask. unfold getTask in Hget.
  now rewrite Hget.
Qed.

Lemma taskDelete_fst tasks id : fst (taskDelete tasks id) = delete id tasks.
Proof. unfold taskDelete, deleteTask. now destruct (negb _). Qed.

Lemma handleTask_invariant tasks r :
  (forall key task, getTask tasks key = Some task ->
                    Task.id task = key /\ Task.completedAt task = None) ->
  forall key task,
    getTask (fst (handleTask tasks r)) key = Some task ->
    Task.id task = key /\ Task.completedAt task = None.
Proof.
  intros Hinv key task.
  destruct r as [[data|] id now | id [data|] | id]; cbn [handleTask].
  - cbn. unfold getTask. rewrite lookup_insert. case_decide; [|apply Hinv].
    intros [= <-]. cbn. auto.
  - apply Hinv.
  - destruct (getTask tasks id) as [old|] eqn:Hget.
    + rewrite (taskPatch_found tasks id data old Hget). cbn [fst].
      unfold getTask. rewrite lookup_insert. case_decide; [|apply Hinv].
      intros [= <-]. subst key. destruct (Hinv id old Hget) as [Hid Hc].
      cbn. auto.
    + rewrite (taskPatch_missing tasks id data Hget). apply Hinv.
  - apply Hinv.
  - rewrite taskDelete_fst. unfold getTask. rewrite lookup_delete_Some.
    intros [_ H]. now apply Hinv.
Qed.

End TaskFacts.

(** X11.  No request to the tasks API records a completion time: in every
    store reached from the empty one by POST, PATCH and DELETE requests,
    every task has [completedAt = null], also one whose status is
    [completed]; and a task's [id] is the key it is stored under. *)
Theorem reachable_tasks_never_completedAt rs key task :
  getTask (serveTasks ∅ rs) key = Some task ->
  Task.id task = key /\ Task.completedAt task = None.
Proof.
  assert (forall tasks : gmap string Task.t,
            (forall key task, getTask tasks key = Some task ->
                              Task.id task = key /\ Task.completedAt task = None) ->
            forall key task,
              getTask (serveTasks tasks rs) key = Some task ->
              Task.id task = key /\ Task.completedAt task = None) as Hgen.
  { induction rs as [|r rs IH]; intros tasks Hinv; [exact Hinv|].
    cbn [serveTasks]. apply IH. now apply handleTask_invariant. }
  apply Hgen. intros k t. unfold getTask. now rewrite lookup_empty.
Qed.

Lemma reachable_tasks_never_completedAt_witness :
  exists task,
    getTask
      (serveTasks ∅
         [TaskPost (Some {| InsertTask.title := "Write report";
                            InsertTask.description := None;
                            InsertTask.priority := Some high;
                            InsertTask.status := Some todo;
                            InsertTask.category := None;
                            InsertTask.estimatedMinutes := Some 30;
                            InsertTask.dueDate := None |}) "t1" 0;
          TaskPatch "t1"
            (Some {| PartialInsertTask.title := None;
                     PartialInsertTask.description := None;
                     PartialInsertTask.priority := None;
                     PartialInsertTask.status := Some completed;
                     PartialInsertTask.category := None;
                     PartialInsertTask.estimatedMinutes := None;
                     PartialInsertTask.dueDate := None |})]) "t1" = Some task
    /\ Task.status task = Some completed
    /\ Task.id task = "t1"
    /\ Task.completedAt task = None.
Proof.
  eexists. split; [vm_compute; reflexivity|]. split; [reflexivity|].
  apply (reachable_tasks_never_completedAt
           [TaskPost (Some {| InsertTask.title := "Write report";
                              InsertTask.description := None;
                              InsertTask.priority := Some high;
                              InsertTask.status := Some todo;
                              InsertTask.category := None;
                              InsertTask.estimatedMinutes := Some 30;
                              InsertTask.dueDate := None |}) "t1" 0;
            TaskPatch "t1"
              (Some {| PartialInsertTask.title := None;
                       PartialInsertTask.description := None;
                       PartialInsertTask.priority := None;
                       PartialInsertTask.status := Some completed;
                       PartialInsertTask.category := None;
                       PartialInsertTask.estimatedMinutes := None;
                       PartialInsertTask.dueDate := None |})] "t1").
  vm_compute; reflexivity.
Defined.

(** X12.  A PATCH whose body fails validation is answered 400 whether or
    not the task exists; with a valid body and an id that is not stored it
    is answered 404, as are GET and DELETE; none of these changes the
    store. *)
Theorem task_errors_leave_store tasks id :
  taskPatch tasks id None = (tasks, SchemaFailure 400)
  /\ (getTask tasks id = None ->
      (forall data,
         taskPatch tasks id (Some data) = (tasks, Failure 404 "Task not found"))
      /\ taskGet tasks id = Failure 404 "Task not found"
      /\ taskDelete tasks id = (tasks, Failure 404 "Task not found")).
Proof.
  split; [reflexivity|]. intros Hnone. split; [|split].
  - intros data. now apply taskPatch_missing.
  - unfold taskGet. now rewrite Hnone.
  - unfold taskDelete, deleteTask. unfold getTask in Hnone.
    rewrite delete_id by assumption. rewrite Hnone.
    rewrite bool_decide_eq_false_2 by (intros [? ?]; discriminate).
    reflexivity.
Qed.

Lemma task_errors_leave_store_witness :
  taskDelete (∅ : gmap string Task.t) "t1" = (∅, Failure 404 "Task not found").
Proof.
  apply (proj2 (task_errors_leave_store ∅ "t1")).
  vm_compute; reflexivity.
Defined.

(** X13.  [createTask] never stores an estimate of 0, an empty description
    or an empty category: the [|| null] turns them into [null].  A PATCH
    has no such coercion and stores them as given. *)
Theorem createTask_blank_fields_become_null :
  (forall tasks insertTask id now,
     let task := snd (createTask tasks insertTask id now) in
     getTask (fst (createTask tasks insertTask id now)) id = Some task
     /\ Task.estimatedMinutes task <> Some 0
     /\ Task.description task <> Some ""
     /\ Task.category task <> Some "")
  /\ (forall tasks id task data,
        getTask tasks id = Some task ->
        PartialInsertTask.estimatedMinutes data = Some (Some 0) ->
        PartialInsertTask.description data = Some (Some "") ->
        PartialInsertTask.category data = Some (Some "") ->
        exists task',
          snd (taskPatch tasks id (Some data)) = Json 200 task'
          /\ getTask (fst (taskPatch tasks id (Some data))) id = Some task'
          /\ Task.estimatedMinutes task' = Some 0
          /\ Task.description task' = Some ""
          /\ Task.category task' = Some "").
Proof.
  split.
  - intros tasks insertTask id now. cbn. unfold getTask.
    rewrite lookup_insert_eq. split; [reflexivity|].
    unfold numOrNull, strOrNull. repeat split.
    + destruct (InsertTask.estimatedMinutes insertTask) as [n|]; [|discriminate].
      destruct (Z.eqb_spec n 0); [discriminate | congruence].
    + destruct (InsertTask.description insertTask) as [d|]; [|discriminate].
      destruct (String.eqb_spec d ""); [discriminate | congruence].
    + destruct (InsertTask.category insertTask) as [c|]; [|discriminate].
      destruct (String.eqb_spec c ""); [discriminate | congruence].
  - intros tasks id task data Hget He Hd Hc.
    rewrite (taskPatch_found tasks id data task Hget). cbn [fst snd].
    eexists. split; [reflexivity|]. unfold getTask.
    rewrite lookup_insert_eq. split; [reflexivity|].
    cbn. rewrite He, Hd, Hc. auto.
Qed.

Lemma createTask_blank_fields_become_null_witness :
  exists task',
    snd (taskPatch
           (fst (createTask ∅
                   {| InsertTask.title := "Write report";
                      InsertTask.description := Some "";
                      InsertTask.priority := None;
                      InsertTask.status := None;
                      InsertTask.category := Some "";
                      InsertTask.estimatedMinutes := Some 0;
                      InsertTask.dueDate := None |} "t1" 0))
           "t1"
           (Some {| PartialInsertTask.title := None;
                    PartialInsertTask.description := Some (Some "");
                    PartialInsertTask.priority := None;
                    PartialInsertTask.status := None;
                    PartialInsertTask.category := Some (Some "");
                    PartialInsertTask.estimatedMinutes := Some (Some 0);
                    PartialInsertTask.dueDate := None |}))
    = Json 200 task'
    /\ getTask
         (fst (taskPatch
                 (fst (createTask ∅
                         {| InsertTask.title := "Write report";
                            InsertTask.description := Some "";
                            InsertTask.priority := None;
                            InsertTask.status := None;
                            InsertTask.category := Some "";
                            InsertTask.estimatedMinutes := Some 0;
                            InsertTask.dueDate := None |} "t1" 0))
                 "t1"
                 (Some {| PartialInsertTask.title := None;
                          PartialInsertTask.description := Some (Some "");
                          PartialInsertTask.priority := None;
                          PartialInsertTask.status := None;
                          PartialInsertTask.category := Some (Some "");
                          PartialInsertTask.estimatedMinutes := Some (Some 0);
                          PartialInsertTask.dueDate := None |}))) "t1"
       = Some task'
    /\ Task.estimatedMinutes task' = Some 0
    /\ Task.description task' = Some ""
    /\ Task.category task' = Some "".
Proof.
  apply (proj2 createTask_blank_fields_become_null _ "t1"
           (snd (createTask ∅
                   {| InsertTask.title := "Write report";
                      InsertTask.description := Some "";
                      InsertTask.priority := None;
                      InsertTask.status := None;
                      InsertTask.category := Some "";
                      InsertTask.estimatedMinutes := Some 0;
                      InsertTask.dueDate := None |} "t1" 0)));
    vm_compute; reflexivity.
Defined.

(** X14.  A PATCH on a stored task replaces the fields present in the
    body and keeps the others; [id], [completedAt] and [createdAt] are
    never changed and no other task is touched.  With an empty body the
    task is returned as it is and the store is unchanged. *)
Theorem taskPatch_merges_fields tasks id task data :
  getTask tasks id = Some task ->
  exists task',
    taskPatch tasks id (Some data) = (<[id := task']> tasks, Json 200 task')
    /\ Task.id task' = Task.id task
    /\ Task.completedAt task' = Task.completedAt task
    /\ Task.createdAt task' = Task.createdAt task
    /\ Task.title task'
       = default (Task.title task) (PartialInsertTask.title data)
    /\ Task.description task'
       = default (Task.description task) (PartialInsertTask.description data)
    /\ Task.priority task'
       = match PartialInsertTask.priority data with
         | Some p => Some p
         | None => Task.priority task
         end
    /\ Task.status task'
       = match PartialInsertTask.status data with
         | Some s => Some s
         | None => Task.status task
         end
    /\ Task.category task'
       = default (Task.category task) (PartialInsertTask.category data)
    /\ Task.estimatedMinutes task'
       = default (Task.estimatedMinutes task)
                 (PartialInsertTask.estimatedMinutes data)
    /\ Task.dueDate task'
       = default (Task.dueDate task) (PartialInsertTask.dueDate data)
    /\ (forall id', id' <> id ->
          getTask (fst (taskPatch tasks id (Some data))) id' = getTask tasks id')
    /\ (data = {| PartialInsertTask.title := None;
                  PartialInsertTask.description := None;
                  PartialInsertTask.priority := None;
                  PartialInsertTask.status := None;
                  PartialInsertTask.category := None;
                  PartialInsertTask.estimatedMinutes := None;
                  PartialInsertTask.dueDate := None |} ->
        taskPatch tasks id (Some data) = (tasks, Json 200 task)).
Proof.
  intros Hget. rewrite (taskPatch_found tasks id data task Hget).
  eexists. split; [reflexivity|]. cbn.
  do 3 (split; [reflexivity|]). split; [reflexivity|]. split; [reflexivity|].
  split; [now destruct (PartialInsertTask.priority data)|].
  split; [now destruct (PartialInsertTask.status data)|].
  do 3 (split; [reflexivity|]). split.
  - intros id' Hne. unfold getTask. now rewrite lookup_insert_ne.
  - intros ->. destruct task. cbn. unfold getTask in Hget.
    now rewrite insert_id.
Qed.

Lemma taskPatch_merges_fields_witness :
  let task :=
    {| Task.id := "t1"; Task.title := "Write report";
       Task.description := None; Task.priority := Some high;
       Task.status := Some todo; Task.category := None;
       Task.estimatedMinutes := Some 30; Task.dueDate := None;
       Task.completedAt := None; Task.createdAt := 0 |} in
  let data :=
    {| PartialInsertTask.title := None;
       PartialInsertTask.description := None;
       PartialInsertTask.priority := None;
       PartialInsertTask.status := Some completed;
       PartialInsertTask.category := None;
       PartialInsertTask.estimatedMinutes := None;
       PartialInsertTask.dueDate := None |} in
  exists task',
    taskPatch {[ "t1" := task ]} "t1" (Some data)
    = (<["t1" := task']> {[ "t1" := task ]}, Json 200 task')
    /\ Task.id task' = "t1"
    /\ Task.status task' = Some completed
    /\ Task.priority task' = Some high.
Proof.
  intros task data.
  destruct (taskPatch_merges_fields {[ "t1" := task ]} "t1" task data)
    as (task' & Hrun & Hid & _ & _ & _ & _ & Hp & Hs & _);
    [vm_compute; reflexivity|].
  exists task'. split; [exact Hrun|]. split; [exact Hid|].
  split; [exact Hs | exact Hp].
Defined.

(** X15.  Deleting a stored task answers 204; afterwards GET, PATCH and a
    second DELETE on its id answer 404, and every other task is still
    there. *)
Theorem taskDelete_then_gone tasks id task :
  getTask tasks id = Some task ->
  taskDelete tasks id = (delete id tasks, NoContent)
  /\ taskGet (delete id tasks) id = Failure 404 "Task not found"
  /\ (forall data,
        snd (taskPatch (delete id tasks) id data)
        = match data with
          | Some _ => Failure 404 "Task not found"
          | None => SchemaFailure 400
          end)
  /\ snd (taskDelete (delete id tasks) id) = Failure 404 "Task not found"
  /\ (forall id', id' <> id -> getTask (delete id tasks) id' = getTask tasks id').
Proof.
  intros Hget.
  assert (getTask (delete id tasks) id = None) as Hgone
    by (unfold getTask; apply lookup_delete_eq).
  split; [|split; [|split; [|split]]].
  - unfold taskDelete, deleteTask. unfold getTask in Hget. rewrite Hget.
    rewrite bool_decide_eq_true_2 by eauto. reflexivity.
  - unfold taskGet. now rewrite Hgone.
  - intros [data|]; [|reflexivity]. now rewrite taskPatch_missing.
  - unfold taskDelete, deleteTask. unfold getTask in Hgone. rewrite Hgone.
    rewrite bool_decide_eq_false_2 by (intros [? ?]; discriminate).
    reflexivity.
  - intros id' Hne. unfold getTask. now apply lookup_delete_ne.
Qed.

Lemma taskDelete_then_gone_witness :
  let task :=
    {| Task.id := "t1"; Task.title := "Write report";
       Task.description := None; Task.priority := Some high;
       Task.status := Some todo; Task.category := None;
       Task.estimatedMinutes := Some 30; Task.dueDate := None;
       Task.completedAt := None; Task.createdAt := 0 |} in
  taskDelete {[ "t1" := task ]} "t1" = (delete "t1" {[ "t1" := task ]}, NoContent).
Proof.
  intros task.
  refine (proj1 (taskDelete_then_gone {[ "t1" := task ]} "t1" task _)).
  vm_compute; reflexivity.
Defined.

(** ** Notes *)

Section NoteFacts.

Lemma notesOrdered_later t t' (notes : gmap string Note.t) :
  t <= t' -> notesOrdered t notes -> notesOrdered t' notes.
Proof.
  intros Hle Hinv key note Hget.
  destruct (Hinv key note Hget) as (? & ? & ?). repeat split; [assumption|lia|lia].
Qed.

Lemma nondecreasing_app ts : forall t rest,
  nondecreasing t (ts ++ rest) ->
  nondecreasing t ts /\ t <= List.last ts t
  /\ nondecreasing (List.last ts t) rest.
Proof.
  induction ts as [|a ts IH]; intros t rest H.
  - cbn in *. repeat split; [lia | exact H].
  - destruct H as [Hle H]. destruct (IH a rest H) as (H1 & H2 & H3).
    rewrite last_cons_shift. cbn. repeat split; try assumption. lia.
Qed.

Lemma handleNote_ordered t (notes : gmap string Note.t) r :
  notesOrdered t notes ->
  nondecreasing t (clockReadings r) ->
  notesOrdered (List.last (clockReadings r) t) (fst (handleNote notes r)).
Proof.
  intros Hinv Hclock.
  destruct r as [[data|] id c u | id [data|] now | id];
    cbn [handleNote clockReadings List.last]; cbn in Hclock.
  - destruct Hclock as (Htc & Hcu & _). cbn. intros key note.
    unfold getNote. rewrite lookup_insert. case_decide.
    + intros [= <-]. cbn. repeat split; [assumption | lia | lia].
    + intros Hget. destruct (Hinv key note Hget) as (? & ? & ?).
      repeat split; [assumption | lia | lia].
  - exact Hinv.
  - destruct Hclock as [Htn _]. unfold notePatch, updateNote.
    destruct (notes !! id) as [old|] eqn:Hold.
    + cbn [fst]. intros key note. unfold getNote.
      rewrite lookup_insert. case_decide.
      * intros [= <-]. subst key. destruct (Hinv id old Hold) as (Hid & H1 & H2).
        cbn. repeat split; [assumption | lia | lia].
      * intros Hget. destruct (Hinv key note Hget) as (? & ? & ?).
        repeat split; [assumption | lia | lia].
    + cbn [fst]. now apply (notesOrdered_later t).
  - exact Hinv.
  - assert (fst (noteDelete notes id) = delete id notes) as ->
      by (unfold noteDelete, deleteNote; now destruct (negb _)).
    intros key note. unfold getNote. rewrite lookup_delete_Some.
    intros [_ Hget]. now apply Hinv.
Qed.

Lemma serveNotes_ordered rs : forall t (notes : gmap string Note.t),
  notesOrdered t notes ->
  nondecreasing t (concat (map clockReadings rs)) ->
  exists t', notesOrdered t' (serveNotes notes rs).
Proof.
  induction rs as [|r rs IH]; intros t notes Hinv Hclock; [now exists t|].
  cbn [map concat] in Hclock.
  destruct (nondecreasing_app _ _ _ Hclock) as (H1 & _ & H2).
  cbn [serveNotes].
  apply (IH (List.last (clockReadings r) t)); [|exact H2].
  now apply handleNote_ordered.
Qed.

End NoteFacts.

(** X16.  As long as the clock does not run backwards between the readings
    the requests make, every note in every store reached from the empty one
    by POST, PATCH and DELETE requests has [createdAt <= updatedAt], and its
    [id] is the key it is stored under. *)
Theorem reachable_notes_created_before_updated t0 rs key note :
  nondecreasing t0 (concat (map clockReadings rs)) ->
  getNote (serveNotes ∅ rs) key = Some note ->
  Note.id note = key /\ Note.createdAt note <= Note.updatedAt note.
Proof.
  intros Hclock Hget.
  destruct (serveNotes_ordered rs t0 ∅) as [t' Hinv]; [|exact Hclock|].
  - intros k n. unfold getNote. now rewrite lookup_empty.
  - destruct (Hinv key note Hget) as (Hid & Hle & _). auto.
Qed.

Lemma reachable_notes_created_before_updated_witness :
  exists note,
    getNote
      (serveNotes ∅
         [NotePost (Some {| InsertNote.title := "Plan";
                            InsertNote.content := "Draft" |}) "n1" 100 101;
          NotePatch "n1"
            (Some {| PartialInsertNote.title := None;
                     PartialInsertNote.content := Some "Final" |}) 250])
      "n1" = Some note
    /\ Note.updatedAt note = 250
    /\ Note.id note = "n1"
    /\ Note.createdAt note <= Note.updatedAt note.
Proof.
  eexists. split; [vm_compute; reflexivity|]. split; [reflexivity|].
  apply (reachable_notes_created_before_updated 0
           [NotePost (Some {| InsertNote.title := "Plan";
                              InsertNote.content := "Draft" |}) "n1" 100 101;
            NotePatch "n1"
              (Some {| PartialInsertNote.title := None;
                       PartialInsertNote.content := Some "Final" |}) 250]
           "n1").
  - vm_compute. repeat split; discriminate.
  - vm_compute; reflexivity.
Defined.

(** ** Client pages *)

(** X17.  The habits page and the server agree: with the same time-zone
    offset and the same clock reading, [isCompletedToday] holds of a stored
    habit exactly when a check-in on it would be rejected with
    [AlreadyCheckedInToday]. *)
Theorem isCompletedToday_iff_rejected LocalTZA st id habit now :
  getHabit st id = Some habit ->
  isCompletedToday LocalTZA habit now = true
  <-> habitCheckIn LocalTZA st id now = (st, AlreadyCheckedInToday).
Proof.
  intros Hget.
  assert (isCompletedToday LocalTZA habit now
          = match Habit.lastCompletedAt habit with
            | Some lc => sameCalendarFields LocalTZA lc now
            | None => false
            end) as -> by reflexivity.
  destruct (habitCheckIn_outcome LocalTZA st id now habit Hget)
    as [[Heq (lc & Hlc & H0)] | (h' & Heq & _ & _ & Hne)]; rewrite Heq.
  - rewrite Hlc. split; [reflexivity|]. intros _.
    now apply sameCalendarFields_today.
  - split; [|discriminate].
    destruct (Habit.lastCompletedAt habit) as [lc|]; [|discriminate].
    intros Hsame. apply sameCalendarFields_today in Hsame.
    now destruct (Hne lc eq_refl).
Qed.

Lemma isCompletedToday_iff_rejected_witness :
  isCompletedToday utcZone (sampleHabit 4 5 (Some (atHour 19783 1))) (atHour 19783 23)
  = true
  <-> habitCheckIn utcZone (habitStore (sampleHabit 4 5 (Some (atHour 19783 1))))
                   "h1" (atHour 19783 23)
      = (habitStore (sampleHabit 4 5 (Some (atHour 19783 1))),
         AlreadyCheckedInToday).
Proof.
  apply (isCompletedToday_iff_rejected utcZone
           (habitStore (sampleHabit 4 5 (Some (atHour 19783 1)))) "h1"
           (sampleHabit 4 5 (Some (atHour 19783 1))) (atHour 19783 23)).
  vm_compute; reflexivity.
Defined.

Section ClientFacts.

Lemma numOrZero_Some n : numOrZero (Some n) = n.
Proof. cbn. destruct (Z.eqb_spec n 0); congruence. Qed.

Lemma filter_length_split {A} (p : A -> bool) (l : list A) :
  (length (List.filter p l) + length (List.filter (fun x => negb (p x)) l)
   = length l)%nat.
Proof.
  induction l as [|a l IH]; [reflexivity|].
  cbn. destruct (p a); cbn; lia.
Qed.

Lemma fold_durations_acc (l : list FocusSession.t) : forall acc,
  fold_left (fun acc s => acc + numOrZero (FocusSession.durationMinutes s)) l acc
  = acc
    + fold_left
        (fun acc s => acc + numOrZero (FocusSession.durationMinutes s)) l 0.
Proof.
  induction l as [|s l IH]; intros acc; cbn [fold_left]; [lia|].
  rewrite IH, (IH (0 + _)). lia.
Qed.

Lemma fold_streaks_spec (l : list Habit.t) : forall acc,
  let m := fold_left (fun max h => Z.max max (Habit.currentStreak h)) l acc in
  acc <= m
  /\ (forall h, In h l -> Habit.currentStreak h <= m)
  /\ (m = acc \/ exists h, In h l /\ Habit.currentStreak h = m).
Proof.
  induction l as [|a l IH]; intros acc; cbn [fold_left].
  - cbn. repeat split; [lia | tauto | now left].
  - destruct (IH (Z.max acc (Habit.currentStreak a))) as (H1 & H2 & H3).
    cbv zeta. split; [lia|]. split.
    + intros h [<- | Hin]; [lia | now apply H2].
    + destruct H3 as [-> | (h & Hin & Hh)].
      * destruct (Z.max_spec acc (Habit.currentStreak a)) as [[_ ->] | [_ ->]];
          [right; exists a; cbn; auto | now left].
      * right. exists h. cbn. auto.
Qed.

End ClientFacts.

(** X18.  On the dashboard the completed and the active tasks add up to
    the total, also while the query has not loaded (all three are 0) and
    for tasks stored without a status (they count as active); on the tasks
    page the filter "all" shows every task, and the lists of "todo" and
    "completed" together have as many tasks as there are. *)
Theorem task_counts_add_up tasks :
  Dashboard.completedTasks tasks + Dashboard.activeTasks tasks
  = Dashboard.totalTasks tasks
  /\ filteredTasks FilterAll tasks = tasks
  /\ (length <$> filteredTasks FilterCompleted tasks)
     = (fun l => Z.to_nat (Dashboard.completedTasks (Some l))) <$> tasks
  /\ (length <$> filteredTasks FilterTodo tasks)
     = (fun l => Z.to_nat (Dashboard.activeTasks (Some l))) <$> tasks
  /\ (forall task,
        Task.status task = None ->
        Dashboard.activeTasks (Some [task]) = 1
        /\ filteredTasks FilterTodo (Some [task]) = Some [task]).
Proof.
  unfold Dashboard.completedTasks, Dashboard.activeTasks, Dashboard.totalTasks,
    filteredTasks.
  split; [|split; [|split; [|split]]].
  - destruct tasks as [l|]; [|reflexivity]. cbn [fmap option_fmap option_map].
    rewrite !numOrZero_Some. pose proof (filter_length_split statusIsCompleted l).
    lia.
  - destruct tasks as [l|]; [|reflexivity]. cbn. f_equal.
    induction l as [|a l IH]; [reflexivity|]. cbn. now rewrite IH.
  - destruct tasks as [l|]; [|reflexivity]. cbn [fmap option_fmap option_map].
    rewrite numOrZero_Some, Nat2Z.id. reflexivity.
  - destruct tasks as [l|]; [|reflexivity]. cbn [fmap option_fmap option_map].
    rewrite numOrZero_Some, Nat2Z.id. reflexivity.
  - intros task Hnone. cbn. unfold statusIsCompleted. rewrite Hnone. cbn. auto.
Qed.

Lemma task_counts_add_up_witness :
  let task :=
    {| Task.id := "t1"; Task.title := "Write report";
       Task.description := None; Task.priority := None;
       Task.status := None; Task.category := None;
       Task.estimatedMinutes := None; Task.dueDate := None;
       Task.completedAt := None; Task.createdAt := 0 |} in
  Dashboard.activeTasks (Some [task]) = 1
  /\ filteredTasks FilterTodo (Some [task]) = Some [task].
Proof.
  intros task.
  refine (proj2 (proj2 (proj2 (proj2 (task_counts_add_up None)))) task _).
  reflexivity.
Defined.

(** X19.  When no session has a negative duration the focus time is not
    negative and the hours and minutes shown for it are its quotient and
    remainder by 60.  For a negative focus time that is not a multiple of 60
    the two figures do not add up to it: they are one hour short. *)
Theorem focusTime_hours_minutes sessions :
  let total := Dashboard.focusTime sessions in
  ((forall l s d, sessions = Some l -> In s l ->
                  FocusSession.durationMinutes s = Some d -> 0 <= d) ->
   0 <= total
   /\ 60 * Dashboard.focusHours total + Dashboard.focusMinutes total = total
   /\ 0 <= Dashboard.focusMinutes total < 60)
  /\ (total < 0 -> total mod 60 <> 0 ->
      60 * Dashboard.focusHours total + Dashboard.focusMinutes total
      = total - 60).
Proof.
  cbv zeta. unfold Dashboard.focusHours, Dashboard.focusMinutes. split.
  - intros Hpos.
    assert (0 <= Dashboard.focusTime sessions) as H0.
    { unfold Dashboard.focusTime. destruct sessions as [l|]; [|cbn; lia].
      cbn [fmap option_fmap option_map]. rewrite numOrZero_Some.
      assert (forall s d, In s l ->
                FocusSession.durationMinutes s = Some d -> 0 <= d) as Hl
        by (intros s d; now apply (Hpos l)).
      clear Hpos. induction l as [|a l IH]; cbn [fold_left]; [lia|].
      rewrite fold_durations_acc.
      assert (0 <= numOrZero (FocusSession.durationMinutes a)).
      { destruct (FocusSession.durationMinutes a) as [d|] eqn:Hd; [|cbn; lia].
        rewrite numOrZero_Some. apply (Hl a d); [now left | exact Hd]. }
      assert (0 <= fold_left
                (fun acc s => acc + numOrZero (FocusSession.durationMinutes s))
                l 0) by (apply IH; intros s d Hin; apply Hl; now right).
      lia. }
    rewrite Z.rem_mod_nonneg by lia.
    pose proof (Z.mod_pos_bound (Dashboard.focusTime sessions) 60).
    pose proof (Z.div_mod (Dashboard.focusTime sessions) 60). lia.
  - intros Hneg Hrem.
    pose proof (Z.quot_rem' (Dashboard.focusTime sessions) 60) as Hqr.
    pose proof (Z.rem_bound_neg_pos (Dashboard.focusTime sessions) 60) as Hb.
    pose proof (Z.rem_mod_eq_0 (Dashboard.focusTime sessions) 60) as Hz.
    pose proof (Z.div_mod (Dashboard.focusTime sessions) 60) as Hdm.
    pose proof (Z.mod_pos_bound (Dashboard.focusTime sessions) 60) as Hmb.
    assert (Z.rem (Dashboard.focusTime sessions) 60 <> 0) by (intros E; apply Hrem, Hz; [lia | exact E]).
    assert (Dashboard.focusTime sessions `quot` 60
            = Dashboard.focusTime sessions / 60 + 1) as Hq by
      (Z.div_mod_to_equations; Z.quot_rem_to_equations; lia).
    lia.
Qed.

Lemma focusTime_hours_minutes_witness :
  let sessions :=
    Some [sampleSession 0 (Some 5400000) (Some 90);
          sampleSession 0 None None;
          sampleSession 0 (Some 1500000) (Some 25)] in
  0 <= Dashboard.focusTime sessions
  /\ 60 * Dashboard.focusHours (Dashboard.focusTime sessions)
     + Dashboard.focusMinutes (Dashboard.focusTime sessions)
     = Dashboard.focusTime sessions
  /\ 0 <= Dashboard.focusMinutes (Dashboard.focusTime sessions) < 60.
Proof.
  intros sessions.
  refine (proj1 (focusTime_hours_minutes sessions) _).
  intros l s d [= <-] Hin Hd.
  destruct Hin as [<- | [<- | [<- | []]]]; cbn in Hd;
    try discriminate Hd; injection Hd as <-; lia.
Defined.

(** X20.  The streak shown on the dashboard is the largest current streak
    among the habits: it is at least every habit's current streak, never
    negative, and either 0 or the current streak of one of the habits. *)
Theorem dashboard_currentStreak_is_max habits :
  0 <= Dashboard.currentStreak (Some habits)
  /\ (forall h, In h habits ->
        Habit.currentStreak h <= Dashboard.currentStreak (Some habits))
  /\ (Dashboard.currentStreak (Some habits) = 0
      \/ exists h, In h habits
                   /\ Habit.currentStreak h
                      = Dashboard.currentStreak (Some habits)).
Proof.
  unfold Dashboard.currentStreak. cbn [fmap option_fmap option_map].
  rewrite numOrZero_Some. apply fold_streaks_spec.
Qed.

Lemma dashboard_currentStreak_is_max_witness :
  let habits :=
    [sampleHabit 3 5 (Some (atHour 19782 23)); sampleHabit 7 9 None;
     sampleHabit 0 0 None] in
  0 <= Dashboard.currentStreak (Some habits)
  /\ (forall h, In h habits ->
        Habit.currentStreak h <= Dashboard.currentStreak (Some habits))
  /\ (Dashboard.currentStreak (Some habits) = 0
      \/ exists h, In h habits
                   /\ Habit.currentStreak h
                      = Dashboard.currentStreak (Some habits)).
Proof.
  intros habits. apply (dashboard_currentStreak_is_max habits).
Defined.

(** ** More on check-ins *)

(** X21.  The date arithmetic of the check-in handler on a host with a
    fixed local offset: its [yesterday] is [now] less 24 hours, also across
    the first of a month or of a year; its [isSameDay] test holds exactly
    when the last completion and [now] have the same local day number,
    whatever the times of day, and its [isConsecutive] test exactly when
    the day numbers differ by one. *)
Theorem checkIn_date_tests offset lastCompleted now :
  let LocalTZA := JSDate.fixedOffset offset in
  let yesterday :=
    JSDate.setDate LocalTZA now (JSDate.getDate LocalTZA now - 1) in
  yesterday = now - JSDate.msPerDay
  /\ (sameCalendarFields LocalTZA lastCompleted now = true
      <-> JSDate.localDay LocalTZA lastCompleted = JSDate.localDay LocalTZA now)
  /\ (sameCalendarFields LocalTZA lastCompleted yesterday = true
      <-> JSDate.localDay LocalTZA lastCompleted + 1
          = JSDate.localDay LocalTZA now).
Proof.
  cbv zeta. split; [|split].
  - rewrite setDate_local.
    unfold JSDate.UTC, JSDate.LocalTime, JSDate.fixedOffset.
    cbn [JSDate.zoneOffset]. unfold JSDate.msPerDay. lia.
  - apply sameCalendarFields_iff.
  - rewrite sameCalendarFields_yesterday.
    rewrite (yesterdayOnPreviousDay_fixedOffset offset now). lia.
Qed.

Lemma checkIn_date_tests_witness :
  JSDate.setDate (JSDate.fixedOffset 3600000) (atHour 19723 0)
    (JSDate.getDate (JSDate.fixedOffset 3600000) (atHour 19723 0) - 1)
  = atHour 19723 0 - JSDate.msPerDay
  /\ (sameCalendarFields (JSDate.fixedOffset 3600000)
        (atHour 19722 23) (atHour 19723 0) = true
      <-> JSDate.localDay (JSDate.fixedOffset 3600000) (atHour 19722 23)
          = JSDate.localDay (JSDate.fixedOffset 3600000) (atHour 19723 0))
  /\ (sameCalendarFields (JSDate.fixedOffset 3600000) (atHour 19722 23)
        (JSDate.setDate (JSDate.fixedOffset 3600000) (atHour 19723 0)
           (JSDate.getDate (JSDate.fixedOffset 3600000) (atHour 19723 0) - 1))
      = true
      <-> JSDate.localDay (JSDate.fixedOffset 3600000) (atHour 19722 23) + 1
          = JSDate.localDay (JSDate.fixedOffset 3600000) (atHour 19723 0)).
Proof.
  apply (checkIn_date_tests 3600000 (atHour 19722 23) (atHour 19723 0)).
Defined.

(** X22.  The check-in handler never looks at [frequency]: a weekly habit
    is treated like a daily one.  Two stored habits that differ in nothing
    but their frequency are rejected or accepted alike, and when accepted
    get the same streaks. *)
Theorem checkIn_ignores_frequency LocalTZA st st' id now habit habit' :
  getHabit st id = Some habit ->
  getHabit st' id = Some habit' ->
  Habit.currentStreak habit' = Habit.currentStreak habit ->
  Habit.bestStreak habit' = Habit.bestStreak habit ->
  Habit.lastCompletedAt habit' = Habit.lastCompletedAt habit ->
  status (snd (habitCheckIn LocalTZA st' id now))
  = status (snd (habitCheckIn LocalTZA st id now))
  /\ forall h1 h1',
       getHabit (fst (habitCheckIn LocalTZA st id now)) id = Some h1 ->
       getHabit (fst (habitCheckIn LocalTZA st' id now)) id = Some h1' ->
       Habit.currentStreak h1' = Habit.currentStreak h1
       /\ Habit.bestStreak h1' = Habit.bestStreak h1
       /\ Habit.lastCompletedAt h1' = Habit.lastCompletedAt h1
       /\ Habit.frequency h1' = Habit.frequency habit'.
Proof.
  intros Hget Hget' Hcs Hbs Hlc.
  destruct (habitCheckIn_outcome LocalTZA st id now habit Hget)
    as [[Heq (lc & Hl & H0)] | (h & Heq & Hh & Hc & Hne)];
    destruct (habitCheckIn_outcome LocalTZA st' id now habit' Hget')
      as [[Heq' (lc' & Hl' & H0')] | (h' & Heq' & Hh' & Hc' & Hne')];
    rewrite Heq, Heq'; cbn [fst snd status].
  - split; [reflexivity|]. intros h1 h1' H1 H1'.
    assert (h1 = habit) as -> by congruence.
    assert (h1' = habit') as -> by congruence. auto.
  - rewrite Hlc in Hne'. now destruct (Hne' lc Hl).
  - rewrite Hlc in Hl'. now destruct (Hne lc' Hl').
  - split; [reflexivity|]. intros h1 h1'.
    rewrite !getHabit_setHabits_insert. case_decide; [|congruence].
    intros [= <-] [= <-].
    assert (Habit.currentStreak h' = Habit.currentStreak h) as Hsame
      by (rewrite Hc, Hc', Hlc, Hcs; reflexivity).
    rewrite Hh', Hh. cbn. rewrite Hsame, Hbs. auto.
Qed.

Lemma checkIn_ignores_frequency_witness :
  let weekly_habit :=
    {| Habit.id := "h1"; Habit.name := "Review";
       Habit.description := None; Habit.frequency := Some weekly;
       Habit.currentStreak := 4; Habit.bestStreak := 4;
       Habit.lastCompletedAt := Some (atHour 19776 9); Habit.createdAt := 0 |} in
  status (snd (habitCheckIn utcZone (habitStore weekly_habit) "h1" (atHour 19783 9)))
  = status (snd (habitCheckIn utcZone
                   (habitStore (sampleHabit 4 4 (Some (atHour 19776 9))))
                   "h1" (atHour 19783 9)))
  /\ forall h1 h1',
       getHabit
         (fst (habitCheckIn utcZone
                 (habitStore (sampleHabit 4 4 (Some (atHour 19776 9))))
                 "h1" (atHour 19783 9))) "h1" = Some h1 ->
       getHabit
         (fst (habitCheckIn utcZone (habitStore weekly_habit) "h1" (atHour 19783 9)))
         "h1" = Some h1' ->
       Habit.currentStreak h1' = Habit.currentStreak h1
       /\ Habit.bestStreak h1' = Habit.bestStreak h1
       /\ Habit.lastCompletedAt h1' = Habit.lastCompletedAt h1
       /\ Habit.frequency h1' = Habit.frequency weekly_habit.
Proof.
  intros weekly_habit.
  apply (checkIn_ignores_frequency utcZone
           (habitStore (sampleHabit 4 4 (Some (atHour 19776 9))))
           (habitStore weekly_habit) "h1" (atHour 19783 9)
           (sampleHabit 4 4 (Some (atHour 19776 9))) weekly_habit);
    vm_compute; reflexivity.
Defined.

(** X23.  A broken streak starts again: after a gap of two or more
    calendar days, check-ins on [n] consecutive days leave the current
    streak at [n] and the best streak at the larger of the old best streak
    and [n]; this on a host that puts the [yesterday] of the first of them
    no earlier than the day before it, and that of each later one on the
    day before it. *)
Theorem checkIns_after_gap LocalTZA st id habit t0 t1 rest :
  getHabit st id = Some habit ->
  Habit.lastCompletedAt habit = Some t0 ->
  2 <= daysBetween LocalTZA t0 t1 ->
  yesterdayNotEarlier LocalTZA t1 ->
  consecutiveDays LocalTZA t1 rest ->
  Forall (yesterdayOnPreviousDay LocalTZA) rest ->
  exists h,
    getHabit (serve LocalTZA st (checkIns id (t1 :: rest))) id = Some h
    /\ Habit.currentStreak h = Z.of_nat (length (t1 :: rest))
    /\ Habit.bestStreak h
       = Z.max (Habit.bestStreak habit) (Z.of_nat (length (t1 :: rest)))
    /\ Habit.lastCompletedAt h = Some (List.last rest t1).
Proof.
  intros Hget Hlc Hgap Hy Hdays Hzone. cbn [checkIns map serve handle].
  destruct (habitCheckIn_outcome LocalTZA st id t1 habit Hget)
    as [[_ (lc & Hl & H0)] | (h1 & Heq & Hh1 & Hcs1 & _)].
  - rewrite Hlc in Hl. injection Hl as <-. lia.
  - rewrite Hlc in Hcs1. unfold yesterdayNotEarlier in Hy.
    unfold daysBetween in Hgap.
    destruct (Z.eqb_spec (JSDate.localDay LocalTZA t0)
                         (yesterdayDay LocalTZA t1)) as [|_]; [lia|].
    assert (getHabit (fst (habitCheckIn LocalTZA st id t1)) id = Some h1)
      as Hget1.
    { rewrite Heq. cbn [fst]. rewrite getHabit_setHabits_insert.
      now case_decide. }
    assert (Habit.lastCompletedAt h1 = Some t1) as Hlc1 by now rewrite Hh1.
    assert (Habit.bestStreak h1 = Z.max (Habit.bestStreak habit) 1) as Hbs1.
    { rewrite Hh1. cbn. now rewrite Hcs1. }
    destruct (serve_checkIns_consecutive LocalTZA rest
                (fst (habitCheckIn LocalTZA st id t1)) id h1 t1 Hget1 Hlc1)
      as (h & Hg & Hcs & Hbs & Hl); [lia | exact Hdays | exact Hzone |].
    exists h. fold (checkIns id rest). split; [exact Hg|].
    cbn [length]. repeat split; [lia | lia | exact Hl].
Qed.

Lemma checkIns_after_gap_witness :
  exists h,
    getHabit
      (serve newYork2024 (habitStore (sampleHabit 4 4 (Some 1710045000000)))
             (checkIns "h1" [1710131400000; 1710217800000])) "h1" = Some h
    /\ Habit.currentStreak h = 2
    /\ Habit.bestStreak h = Z.max 4 2
    /\ Habit.lastCompletedAt h = Some 1710217800000.
Proof.
  apply (checkIns_after_gap newYork2024
           (habitStore (sampleHabit 4 4 (Some 1710045000000))) "h1"
           (sampleHabit 4 4 (Some 1710045000000))
           1710045000000 1710131400000 [1710217800000]).
  - vm_compute; reflexivity.
  - reflexivity.
  - vm_compute; discriminate.
  - vm_compute; discriminate.
  - vm_compute. repeat split.
  - repeat constructor; vm_compute; reflexivity.
Defined.

(** X24.  When the last completion lies exactly one calendar day before
    [now], the check-in succeeds and the stored current streak is the old
    one plus 1; this on a host that puts [yesterday] on the day before
    [now], as a host with a fixed offset always does and a host with
    daylight saving does unless a transition skips that local time over
    midnight. *)
Theorem checkIn_next_day_increments LocalTZA st id now habit lc :
  getHabit st id = Some habit ->
  Habit.lastCompletedAt habit = Some lc ->
  daysBetween LocalTZA lc now = 1 ->
  yesterdayOnPreviousDay LocalTZA now ->
  exists h',
    habitCheckIn LocalTZA st id now
    = (setHabits st (<[id := h']> (habits st)),
       {| status := 200; body := BodyHabit (Some h') |})
    /\ getHabit (fst (habitCheckIn LocalTZA st id now)) id = Some h'
    /\ Habit.currentStreak h' = Habit.currentStreak habit + 1
    /\ Habit.bestStreak h'
       = Z.max (Habit.bestStreak habit) (Habit.currentStreak habit + 1)
    /\ Habit.lastCompletedAt h' = Some now.
Proof.
  intros Hget Hlc Hday Hy.
  destruct (habitCheckIn_outcome LocalTZA st id now habit Hget)
    as [[_ (lc' & Hlc' & H0)] | (h' & Heq & Hh' & Hcs & _)].
  - rewrite Hlc in Hlc'. injection Hlc' as <-. lia.
  - rewrite Hlc in Hcs. unfold yesterdayOnPreviousDay in Hy.
    unfold daysBetween in Hday.
    destruct (Z.eqb_spec (JSDate.localDay LocalTZA lc)
                         (yesterdayDay LocalTZA now)); [|lia].
    exists h'. rewrite Heq. split; [reflexivity|]. cbn [fst].
    split; [rewrite getHabit_setHabits_insert; now case_decide|].
    split; [exact Hcs|]. rewrite Hh'. cbn. rewrite Hcs. auto.
Qed.

Lemma checkIn_next_day_increments_witness :
  exists h',
    habitCheckIn newYork2024 (habitStore (sampleHabit 3 5 (Some 1730607300000)))
                 "h1" 1730781900000
    = (setHabits (habitStore (sampleHabit 3 5 (Some 1730607300000)))
         (<["h1" := h']>
            (habits (habitStore (sampleHabit 3 5 (Some 1730607300000))))),
       {| status := 200; body := BodyHabit (Some h') |})
    /\ getHabit
         (fst (habitCheckIn newYork2024
                 (habitStore (sampleHabit 3 5 (Some 1730607300000)))
                 "h1" 1730781900000)) "h1" = Some h'
    /\ Habit.currentStreak h' = 3 + 1
    /\ Habit.bestStreak h' = Z.max 5 (3 + 1)
    /\ Habit.lastCompletedAt h' = Some 1730781900000.
Proof.
  apply (checkIn_next_day_increments newYork2024
           (habitStore (sampleHabit 3 5 (Some 1730607300000))) "h1"
           1730781900000 (sampleHabit 3 5 (Some 1730607300000))
           1730607300000);
    vm_compute; reflexivity.
Defined.
